(** * yearly_contribution_text: text rendered on a 7 x 52 contribution grid

    A shallow embedding of [yearly_contribution_text.py] and the properties
    of its rasterizer ([build_bitmap]), of its date mapping and of its driver
    ([write_string_to_git], the [__main__] block).

    Conventions of the embedding.
    - A Python [str] is a [string]; its characters are read as the code
      points 0..255, on which [lower] below is [str.lower] exactly. Beyond
      this range [str.lower] can make a text longer (U+0130 becomes two
      characters), and the code lowers before it cuts: a statement that
      bounds the length of a text bounds the length of the lowered text.
    - A Python [int] is a [Z]; [len] is [Z.of_nat] of a length.
    - A Python exception ([IndexError] on a list or a string index) is the
      [None] of an [option]; every theorem that says the code returns
      something proves that the result is a [Some].
    - A [datetime.date] is its proleptic Gregorian ordinal
      ([date.toordinal()]), a [Z]; adding a [timedelta] of [n] days adds [n].
    - The driver runs in a small monad [M]: its state is the list of the
      [subprocess.run] calls made so far, its results are a value, a
      [sys.exit] or an uncaught exception. What [git] answers is a parameter
      of the driver. *)

From Stdlib Require Import ZArith List String Ascii Bool Lia Sorted.
From Equations Require Import Equations.
Import ListNotations.

Local Open Scope string_scope.
Local Open Scope Z_scope.

(** ** Python strings *)

Module Str.

(** [str.lower] on one code point below 256: the letters A-Z and the Latin-1
    capitals U+00C0..U+00DE (the multiplication sign U+00D7 is no letter)
    move 32 places up, everything else stays. *)
Definition lower_char (c : ascii) : ascii :=
  let n := nat_of_ascii c in
  if ((65 <=? n) && (n <=? 90))%nat
     || ((192 <=? n) && (n <=? 222) && negb (n =? 215))%nat
  then ascii_of_nat (n + 32)
  else c.

(** [s.lower()] *)
Fixpoint lower (s : string) : string :=
  match s with
  | EmptyString => EmptyString
  | String c s' => String (lower_char c) (lower s')
  end.

(** The first [n] characters of [s]. *)
Fixpoint take (n : nat) (s : string) : string :=
  match n, s with
  | O, _ => EmptyString
  | S _, EmptyString => EmptyString
  | S n', String c s' => String c (take n' s')
  end.

(** [s[:n]]: a negative bound counts from the end of the string. *)
Definition slice_to (n : Z) (s : string) : string :=
  if n <? 0
  then take (Z.to_nat (Z.of_nat (String.length s) + n)) s
  else take (Z.to_nat n) s.

(** ["".join(l)] *)
Definition join (l : list string) : string :=
  fold_right String.append EmptyString l.

(** [s * n]: [n] copies of [s], none when [n <= 0]. *)
Definition mul (s : string) (n : Z) : string :=
  join (repeat s (Z.to_nat n)).

(** [len(s)] *)
Definition len (s : string) : Z := Z.of_nat (String.length s).

(** The characters of a string, in the order in which [for c in s] visits
    them. *)
Definition chars (s : string) : list ascii := list_ascii_of_string s.

(** Every character of [s] is the digit 0. *)
Definition all_zero (s : string) : Prop :=
  Forall (fun c => c = "0"%char) (chars s).

End Str.

(** ** The glyph table *)

(** [d.get(k)] on a dict written as the list of its items. *)
Fixpoint dict_get {V : Type} (d : list (ascii * V)) (k : ascii) : option V :=
  match d with
  | [] => None
  | (k', v) :: d' => if Ascii.eqb k' k then Some v else dict_get d' k
  end.

Definition CHAR_MAP : list (ascii * list string) :=
  [ ("a"%char, ["0110"; "1001"; "1111"; "1001"; "1001"; "0000"; "0000"]);
    ("b"%char, ["1110"; "1001"; "1110"; "1001"; "1110"; "0000"; "0000"]);
    ("c"%char, ["0111"; "1000"; "1000"; "1000"; "0111"; "0000"; "0000"]);
    ("d"%char, ["1110"; "1001"; "1001"; "1001"; "1110"; "0000"; "0000"]);
    ("e"%char, ["1111"; "1000"; "1110"; "1000"; "1111"; "0000"; "0000"]);
    ("f"%char, ["1111"; "1000"; "1110"; "1000"; "1000"; "0000"; "0000"]);
    ("g"%char, ["0111"; "1000"; "1011"; "1001"; "0111"; "0000"; "0000"]);
    ("h"%char, ["1001"; "1001"; "1111"; "1001"; "1001"; "0000"; "0000"]);
    ("i"%char, ["111"; "010"; "010"; "010"; "111"; "000"; "000"]);
    ("j"%char, ["0011"; "0001"; "0001"; "1001"; "0110"; "0000"; "0000"]);
    ("k"%char, ["1001"; "1010"; "1100"; "1010"; "1001"; "0000"; "0000"]);
    ("l"%char, ["1000"; "1000"; "1000"; "1000"; "1111"; "0000"; "0000"]);
    ("m"%char, ["10001"; "11011"; "10101"; "10001"; "10001"; "00000"; "00000"]);
    ("n"%char, ["1001"; "1101"; "1011"; "1001"; "1001"; "0000"; "0000"]);
    ("o"%char, ["0110"; "1001"; "1001"; "1001"; "0110"; "0000"; "0000"]);
    ("p"%char, ["1110"; "1001"; "1110"; "1000"; "1000"; "0000"; "0000"]);
    ("q"%char, ["0110"; "1001"; "1001"; "1011"; "0111"; "0000"; "0000"]);
    ("r"%char, ["1110"; "1001"; "1110"; "1010"; "1001"; "0000"; "0000"]);
    ("s"%char, ["0111"; "1000"; "0110"; "0001"; "1110"; "0000"; "0000"]);
    ("t"%char, ["11111"; "00100"; "00100"; "00100"; "00100"; "00000"; "00000"]);
    ("u"%char, ["1001"; "1001"; "1001"; "1001"; "0110"; "0000"; "0000"]);
    ("v"%char, ["1001"; "1001"; "1001"; "0101"; "0010"; "0000"; "0000"]);
    ("w"%char, ["10001"; "10001"; "10101"; "11011"; "10001"; "00000"; "00000"]);
    ("x"%char, ["1001"; "0101"; "0010"; "0101"; "1001"; "0000"; "0000"]);
    ("y"%char, ["1001"; "0101"; "0010"; "0010"; "0010"; "0000"; "0000"]);
    ("z"%char, ["1111"; "0001"; "0010"; "0100"; "1111"; "0000"; "0000"]);
    ("0"%char, ["0110"; "1001"; "1001"; "1001"; "0110"; "0000"; "0000"]);
    ("1"%char, ["010"; "110"; "010"; "010"; "111"; "000"; "000"]);
    ("2"%char, ["0110"; "1001"; "0010"; "0100"; "1111"; "0000"; "0000"]);
    ("3"%char, ["1110"; "0001"; "0110"; "0001"; "1110"; "0000"; "0000"]);
    ("4"%char, ["1001"; "1001"; "1111"; "0001"; "0001"; "0000"; "0000"]);
    ("5"%char, ["1111"; "1000"; "1110"; "0001"; "1110"; "0000"; "0000"]);
    ("6"%char, ["0111"; "1000"; "1110"; "1001"; "0110"; "0000"; "0000"]);
    ("7"%char, ["1111"; "0001"; "0010"; "0100"; "0100"; "0000"; "0000"]);
    ("8"%char, ["0110"; "1001"; "0110"; "1001"; "0110"; "0000"; "0000"]);
    ("9"%char, ["0110"; "1001"; "0111"; "0001"; "1110"; "0000"; "0000"]) ].

(** [get_char_width(char)], for a string of one character. *)
Definition get_char_width (char : ascii) : Z :=
  match dict_get CHAR_MAP (Str.lower_char char) with
  | Some (row0 :: _) => Str.len row0
  | _ => 0
  end.

(** [get_max_chars(graph_width, avg_char_width, spacing)]; the defaults are
    52, 4 and 1. *)
Definition get_max_chars (graph_width avg_char_width spacing : Z) : Z :=
  graph_width / (avg_char_width + spacing).

(** ** The rasterizer *)

(** The two variables the loop of [build_bitmap] updates. *)
Record acc : Type := mkAcc {
  bitmap_rows : list string;
  total_width : Z
}.

(** How the loop goes on after one character: to the next character
    ([continue], or the end of the body) or out of the loop ([break]). *)
Inductive flow : Type :=
| Continue (a : acc)
| Break (a : acc).

(** The accumulators the loop ends with, either way. *)
Definition acc_of (f : flow) : acc :=
  match f with Continue a | Break a => a end.

(** [l[i] = x] on a list that has an index [i]. *)
Fixpoint list_set {A : Type} (i : nat) (x : A) (l : list A) : list A :=
  match l, i with
  | [], _ => []
  | _ :: l', O => x :: l'
  | y :: l', S i' => y :: list_set i' x l'
  end.

(** [for i in is_: bitmap_rows[i] += char_bitmap[i] + "0"] *)
Fixpoint append_rows (is_ : list nat) (char_bitmap rows : list string)
  : option (list string) :=
  match is_ with
  | [] => Some rows
  | i :: is' =>
      match nth_error rows i, nth_error char_bitmap i with
      | Some r, Some g =>
          append_rows is' char_bitmap (list_set i (r ++ (g ++ "0")) rows)
      | _, _ => None
      end
  end.

(** The body of the loop of [build_bitmap] for the character [char]. *)
Definition loop_body (char : ascii) (a : acc) : option flow :=
  match dict_get CHAR_MAP char with
  | None | Some [] => Some (Continue a)
  | Some ((row0 :: _) as char_bitmap) =>
      let char_width := Str.len row0 + 1 in
      if total_width a + char_width >? 52 then Some (Break a)
      else
        match append_rows (seq 0 7) char_bitmap (bitmap_rows a) with
        | Some rows =>
            Some (Continue (mkAcc rows (total_width a + char_width)))
        | None => None
        end
  end.

(** [for char in text: ...]; the result says whether the loop ran to the end
    of the text or left by [break]. *)
Fixpoint for_loop (text : list ascii) (a : acc) : option flow :=
  match text with
  | [] => Some (Continue a)
  | char :: text' =>
      match loop_body char a with
      | Some (Continue a') => for_loop text' a'
      | r => r
      end
  end.

(** The text the loop runs over: lowered, then cut to [get_max_chars()]
    characters. *)
Definition prepared (text : string) : string :=
  let text := Str.lower text in
  let max_chars := get_max_chars 52 4 1 in
  Str.slice_to max_chars text.

(** The last two statements of [build_bitmap]: one row of zeros on top, the
    last row dropped. *)
Definition shift_down (bitmap_rows : list string) : option (list string) :=
  match nth_error bitmap_rows 0 with
  | Some row0 =>
      Some ([Str.mul "0" (Str.len row0)] ++ removelast bitmap_rows)%list
  | None => None
  end.

(** The accumulators before the loop: seven empty rows, width 0. *)
Definition initial : acc := mkAcc (repeat "" 7) 0.

(** [build_bitmap(text)]; the warnings it prints are left out. *)
Definition build_bitmap (text : string) : option (list string) :=
  match for_loop (Str.chars (prepared text)) initial with
  | Some f => shift_down (bitmap_rows (acc_of f))
  | None => None
  end.

(** The variant of [build_bitmap] the specification proposes: the statement
    [text = text[:max_chars]] removed, everything else as it is. *)
Definition build_bitmap_unified (text : string) : option (list string) :=
  match for_loop (Str.chars (Str.lower text)) initial with
  | Some f => shift_down (bitmap_rows (acc_of f))
  | None => None
  end.

(** [build_bitmap(text)] leaves its loop by [break] at the character of
    index [k] (an index into the text the loop runs over): the loop runs
    through the [k] characters before it, and the body breaks on the
    character at [k]. *)
Definition breaks_at (text : string) (k : nat) : bool :=
  let cs := Str.chars (prepared text) in
  match for_loop (firstn k cs) initial, nth_error cs k with
  | Some (Continue a), Some char =>
      match loop_body char a with
      | Some (Break _) => true
      | _ => false
      end
  | _, _ => false
  end.

(** ** Dates *)

Module Date.

(** The number of days before January 1 of [year] ([_days_before_year] of
    the [datetime] module). *)
Definition days_before_year (year : Z) : Z :=
  let y := year - 1 in
  y * 365 + y / 4 - y / 100 + y / 400.

(** [_is_leap(year)] *)
Definition is_leap (year : Z) : bool :=
  (year mod 4 =? 0) && (negb (year mod 100 =? 0) || (year mod 400 =? 0)).

(** [_days_before_month(year, month)]: the days of the year before the
    first day of [month]. *)
Definition days_before_month (year month : Z) : Z :=
  nth (Z.to_nat month)
      [-1; 0; 31; 59; 90; 120; 151; 181; 212; 243; 273; 304; 334] 0
  + (if (month >? 2) && is_leap year then 1 else 0).

(** [datetime.date(year, month, day)], for a day that exists. *)
Definition date (year month day : Z) : Z :=
  days_before_year year + days_before_month year month + day.

(** [d.weekday()]: Monday is 0 and Sunday is 6. *)
Definition weekday (d : Z) : Z := (d + 6) mod 7.

(** [date.min] and [date.max], the range outside of which [datetime] raises. *)
Definition min_ordinal : Z := 1.
Definition max_ordinal : Z := 3652059.

End Date.

(** [while d.weekday() != 6: d += datetime.timedelta(days=1)], from the
    date [d]; the result is the value of [d] after the loop. *)
Equations? first_sunday (d : Z) : Z
  by wf (Z.to_nat ((6 - Date.weekday d) mod 7)) lt :=
  first_sunday d with Z.eq_dec (Date.weekday d) 6 := {
    | left _ := d
    | right _ := first_sunday (d + 1) }.
Proof.
  clear first_sunday.
  change (Z.to_nat ((6 - Date.weekday (d + 1)) mod 7)
          < Z.to_nat ((6 - Date.weekday d) mod 7))%nat.
  unfold Date.weekday in *.
  replace ((d + 1 + 6) mod 7) with (((d + 6) mod 7 + 1) mod 7)
    by (rewrite Zplus_mod_idemp_l; f_equal; lia).
  pose proof (Z.mod_pos_bound (d + 6) 7 ltac:(lia)) as Hd.
  remember ((d + 6) mod 7) as x eqn:Ex. clear Ex.
  assert (x = 0 \/ x = 1 \/ x = 2 \/ x = 3 \/ x = 4 \/ x = 5) as Hx by lia.
  repeat destruct Hx as [Hx | Hx]; subst x; vm_compute; lia.
Qed.

(** [d + datetime.timedelta(days=row + col * 7)] *)
Definition commit_date (d : Z) (row col : nat) : Z :=
  d + (Z.of_nat row + Z.of_nat col * 7).

(** ** The driver *)

(** A call of [subprocess.run]: [git rev-parse --git-dir], or [git commit]
    with [--date] the noon of a date. *)
Inductive call : Type :=
| RevParse
| Commit (date : Z).

(** How a piece of the driver ends: with a value, in [sys.exit(code)], or in
    an uncaught exception. *)
Inductive result (A : Type) : Type :=
| Ok (a : A)
| Exit (code : Z)
| Error.

Arguments Ok {A} a.
Arguments Exit {A} code.
Arguments Error {A}.

Definition M (A : Type) : Type := list call -> result A * list call.

Definition ret {A : Type} (a : A) : M A := fun w => (Ok a, w).

Definition bind {A B : Type} (m : M A) (k : A -> M B) : M B :=
  fun w =>
    match m w with
    | (Ok a, w') => k a w'
    | (Exit code, w') => (Exit code, w')
    | (Error, w') => (Error, w')
    end.

Notation "x <- m ;; k" := (bind m (fun x => k))
  (at level 61, m at next level, right associativity).

Definition sys_exit {A : Type} (code : Z) : M A := fun w => (Exit code, w).

(** A value that may be an exception. *)
Definition lift {A : Type} (o : option A) : M A :=
  fun w => (match o with Some a => Ok a | None => Error end, w).

(** [for x in l: s = body(x, s)] *)
Fixpoint for_each {A S : Type} (l : list A) (body : A -> S -> M S) (s : S)
  : M S :=
  match l with
  | [] => ret s
  | x :: l' => s' <- body x s ;; for_each l' body s'
  end.

(** The two counters of [write_string_to_git]. *)
Record counters : Type := mkCounters {
  commit_count : Z;
  failed_commits : Z
}.

(** What the [__main__] block did when it ran to its end. *)
Inductive report : Type :=
| Previewed (bitmap : list string)
| Committed (c : counters).

(** [not any(bitmap)] *)
Definition not_any (bitmap : list string) : bool :=
  negb (existsb (fun row => negb (row =? "")%string) bitmap).

Section Driver.

(** What [git] answers: whether [git rev-parse --git-dir] returns 0, and
    whether [git commit] returns 0 for a date. *)
Variable rev_parse_ok : bool.
Variable commit_ok : Z -> bool.

(** [subprocess.run(["git", "rev-parse", "--git-dir"]).returncode == 0] *)
Definition rev_parse : M bool := fun w => (Ok rev_parse_ok, w ++ [RevParse])%list.

(** [generate_commit(date)]; the date is passed as the string
    [strftime] makes of it, one string per date. *)
Definition generate_commit (date : Z) : M bool :=
  fun w => (Ok (commit_ok date), w ++ [Commit date])%list.

(** The body of the inner loop of [write_string_to_git]. *)
Definition emit_cell (bitmap_rows : list string) (d : Z) (col row : nat)
    (c : counters) : M counters :=
  r <- lift (nth_error bitmap_rows row) ;;
  cell <- lift (String.get col r) ;;
  if Ascii.eqb cell "1" then
    ok <- generate_commit (commit_date d row col) ;;
    if ok
    then ret (mkCounters (commit_count c + 1) (failed_commits c))
    else ret (mkCounters (commit_count c) (failed_commits c + 1))
  else ret c.

Definition write_string_to_git (text : string) (year : Z) : M counters :=
  if (year <? 2000) || (year >? 2100) then sys_exit 1
  else
    in_repo <- rev_parse ;;
    if negb in_repo then sys_exit 1
    else
      bitmap_rows <- lift (build_bitmap text) ;;
      let d := first_sunday (Date.date year 1 1) in
      row0 <- lift (nth_error bitmap_rows 0) ;;
      for_each (seq 0 (String.length row0))
        (fun col => for_each (seq 0 7) (emit_cell bitmap_rows d col))
        (mkCounters 0 0).

(** The [__main__] block, with the parsed arguments. *)
Definition main (text : string) (year : Z) (preview : bool) : M report :=
  bitmap <- lift (build_bitmap text) ;;
  if not_any bitmap then sys_exit 1
  else if preview then ret (Previewed bitmap)
  else c <- write_string_to_git text year ;; ret (Committed c).

End Driver.

(** ** Vocabulary of the statements *)

(** The glyph of a character, no rows when the table has none. *)
Definition glyph (c : ascii) : list string :=
  match dict_get CHAR_MAP c with
  | Some g => g
  | None => []
  end.

(** The test [if not char_bitmap] of the loop fails: the table has a glyph
    for [c], and the glyph has rows. *)
Definition supported (c : ascii) : bool :=
  match dict_get CHAR_MAP c with
  | Some (_ :: _) => true
  | _ => false
  end.

(** The columns one character takes: its glyph and one column of spacing. *)
Definition cell_width (c : ascii) : Z :=
  Str.len (nth 0 (glyph c) "") + 1.

Definition width_of (cs : list ascii) : Z :=
  fold_right (fun c w => cell_width c + w) 0 cs.

(** Row [i] of the characters [cs] drawn side by side, whole glyph after
    whole glyph, each followed by its spacing column. *)
Definition drawn_row (i : nat) (cs : list ascii) : string :=
  Str.join (map (fun c => nth i (glyph c) "" ++ "0")%string cs).

Definition drawn (cs : list ascii) : list string :=
  map (fun i => drawn_row i cs) (seq 0 7).

(** A row of a glyph that has no ink. *)
Definition zero_row (s : string) : bool :=
  forallb (Ascii.eqb "0") (Str.chars s).

(** A glyph as the data model wants it: seven rows of one width between 3
    and 5, the last two of them blank. *)
Definition glyph_ok (g : list string) : bool :=
  match g with
  | [] => false
  | row0 :: _ =>
      (List.length g =? 7)%nat
      && forallb (fun r => (String.length r =? String.length row0)%nat) g
      && (3 <=? String.length row0)%nat && (String.length row0 <=? 5)%nat
      && zero_row (nth 5 g "") && zero_row (nth 6 g "")
  end.

(** The cells of a bitmap that hold a 1, column by column and from the top
    row down in each column: the order of the loops of
    [write_string_to_git]. *)
Definition lit (bitmap : list string) (row col : nat) : bool :=
  match nth_error bitmap row with
  | Some r =>
      match String.get col r with
      | Some c => Ascii.eqb c "1"
      | None => false
      end
  | None => false
  end.

Definition lit_cells (bitmap : list string) : list (nat * nat) :=
  flat_map
    (fun col =>
       map (fun row => (row, col)) (filter (fun row => lit bitmap row col) (seq 0 7)))
    (seq 0 (String.length (nth 0 bitmap ""))).

(** The characters the loop draws when it starts with [w] columns: the
    supported ones, up to the first that does not fit. *)
Fixpoint accepted (text : list ascii) (w : Z) : list ascii :=
  match text with
  | [] => []
  | c :: text' =>
      if supported c then
        if w + cell_width c >? 52 then []
        else c :: accepted text' (w + cell_width c)
      else accepted text' w
  end.

(** The bitmap made of the characters [cs]: a row of zeros, then the first
    six rows of the drawing. *)
Definition bitmap_of (cs : list ascii) : list string :=
  Str.mul "0" (width_of cs) :: map (fun i => drawn_row i cs) (seq 0 6).

(** What the loop has drawn so far: the accumulators hold the characters
    [cs], all of them supported. *)
Definition holds (a : acc) (cs : list ascii) : Prop :=
  bitmap_rows a = drawn cs
  /\ total_width a = width_of cs
  /\ forallb supported cs = true.

(** Two bitmaps side by side: row by row, the second after the first. *)
Definition hcat (left right : list string) : list string :=
  map (fun '(l, r) => (l ++ r)%string) (combine left right).

(** A character of a bitmap row: the digit 0 or the digit 1. *)
Definition is_bit (c : ascii) : bool := Ascii.eqb c "0" || Ascii.eqb c "1".

(** [row.count("1")] *)
Definition count_ones (row : string) : Z :=
  Z.of_nat (List.length (filter (fun c => Ascii.eqb c "1") (Str.chars row))).

(** [total_commits = sum(row.count("1") for row in bitmap_rows)] of
    [write_string_to_git], the number it announces. *)
Definition total_commits (bitmap_rows : list string) : Z :=
  fold_right Z.add 0 (map count_ones bitmap_rows).

(** The dates of the lit cells, in the order of [lit_cells]. *)
Definition commit_dates (d : Z) (bitmap : list string) : list Z :=
  map (fun '(row, col) => commit_date d row col) (lit_cells bitmap).

(** The characters [preview_bitmap] prints, as code points: a full block
    (U+2588) for a 1, a space for anything else. *)
Definition block : N := 9608.
Definition space : N := 32.

(** The line [preview_bitmap] prints for [row]: the characters of the row
    joined, a block for each 1 and a space for each other character. *)
Definition preview_row (row : string) : list N :=
  map (fun c => if Ascii.eqb c "1" then block else space) (Str.chars row).

(** [preview_bitmap(bitmap_rows)]: the lines printed for the rows, and the
    width printed after them; the index [bitmap_rows[0]] of the last
    statement raises on an empty list. *)
Definition preview_bitmap (bitmap_rows : list string)
  : option (list (list N) * Z) :=
  match nth_error bitmap_rows 0 with
  | Some row0 => Some (map preview_row bitmap_rows, Str.len row0)
  | None => None
  end.

(** The counters after [generate_commit] has answered for [date]: the
    two branches of [if generate_commit(...)] in [write_string_to_git]. *)
Definition tally (commit_ok : Z -> bool) (c : counters) (date : Z)
  : counters :=
  if commit_ok date
  then mkCounters (commit_count c + 1) (failed_commits c)
  else mkCounters (commit_count c) (failed_commits c + 1).

(** The place of a cell in the order of the loops: its column times 7,
    plus its row. *)
Definition cell_index (cell : nat * nat) : nat :=
  (snd cell * 7 + fst cell)%nat.

(** ** Strings: lengths, characters, slices *)

Module StrFacts.
Import Str.

Lemma append_nil_r (s : string) : (s ++ "")%string = s.
Proof. induction s as [| c s IH]; simpl; [reflexivity | now rewrite IH]. Qed.

Lemma append_assoc (s t u : string) :
  ((s ++ t) ++ u)%string = (s ++ (t ++ u))%string.
Proof. induction s as [| c s IH]; simpl; [reflexivity | now rewrite IH]. Qed.

Lemma len_append (s t : string) : len (s ++ t) = len s + len t.
Proof.
  unfold len. induction s as [| c s IH]; simpl String.length; [reflexivity |].
  rewrite !Nat2Z.inj_succ in *. lia.
Qed.

Lemma len_nonneg (s : string) : 0 <= len s.
Proof. unfold len. lia. Qed.

Lemma chars_append (s t : string) :
  chars (s ++ t) = (chars s ++ chars t)%list.
Proof. unfold chars. induction s as [| c s IH]; simpl; [reflexivity | now rewrite IH]. Qed.

Lemma all_zero_append (s t : string) :
  all_zero (s ++ t) <-> all_zero s /\ all_zero t.
Proof. unfold all_zero. rewrite chars_append. apply Forall_app. Qed.

Lemma zero_row_all_zero (s : string) : zero_row s = true -> all_zero s.
Proof.
  unfold zero_row, all_zero. rewrite forallb_forall, Forall_forall.
  intros H c Hc. symmetry. apply Ascii.eqb_eq. now apply H.
Qed.

Lemma join_app (l : list string) (s : string) :
  join (l ++ [s]) = (join l ++ s)%string.
Proof.
  unfold join. induction l as [| x l IH]; simpl.
  - apply append_nil_r.
  - rewrite IH. now rewrite append_assoc.
Qed.

Lemma len_mul_1 (c : ascii) (n : Z) :
  0 <= n -> len (mul (String c "") n) = n.
Proof.
  intros Hn. unfold mul. rewrite <- (Z2Nat.id n) at 2 by assumption.
  induction (Z.to_nat n) as [| k IH]; [reflexivity |].
  cbn [repeat join fold_right]. fold (join (repeat (String c "") k)).
  rewrite len_append, IH. unfold len. simpl String.length. lia.
Qed.

Lemma all_zero_mul (n : Z) : all_zero (mul "0" n).
Proof.
  unfold mul. induction (Z.to_nat n) as [| k IH]; [constructor |].
  cbn [repeat join fold_right]. constructor; [reflexivity | exact IH].
Qed.

Lemma chars_take (n : nat) (s : string) :
  chars (take n s) = firstn n (chars s).
Proof.
  unfold chars. revert s.
  induction n as [| n IH]; intros [| c s]; simpl; try reflexivity.
  now rewrite IH.
Qed.

Lemma take_take (n m : nat) (s : string) :
  take n (take m s) = take (Nat.min n m) s.
Proof.
  revert m s. induction n as [| n IH]; intros [| m] [| c s]; simpl;
    try reflexivity.
  now rewrite IH.
Qed.

Lemma take_all (n : nat) (s : string) :
  (String.length s <= n)%nat -> take n s = s.
Proof.
  revert s. induction n as [| n IH]; intros [| c s] H; simpl in *;
    try reflexivity; try lia.
  rewrite IH by lia. reflexivity.
Qed.

Lemma lower_take (n : nat) (s : string) :
  lower (take n s) = take n (lower s).
Proof.
  revert s. induction n as [| n IH]; intros [| c s]; simpl; try reflexivity.
  now rewrite IH.
Qed.

Lemma length_chars (s : string) : List.length (chars s) = String.length s.
Proof. unfold chars. induction s as [| c s IH]; simpl; [reflexivity | now rewrite IH]. Qed.

Lemma length_take (n : nat) (s : string) :
  String.length (take n s) = Nat.min n (String.length s).
Proof.
  revert s. induction n as [| n IH]; intros [| c s]; simpl; try reflexivity.
  now rewrite IH.
Qed.

End StrFacts.

(** ** The glyph table is well formed *)

Lemma dict_get_In {V : Type} (d : list (ascii * V)) (k : ascii) (v : V) :
  dict_get d k = Some v -> In (k, v) d.
Proof.
  induction d as [| [k' v'] d IH]; simpl; [discriminate |].
  destruct (Ascii.eqb_spec k' k) as [-> | _].
  - intros [= ->]. now left.
  - intros H. right. now apply IH.
Qed.

Lemma CHAR_MAP_ok : forallb (fun kv => glyph_ok (snd kv)) CHAR_MAP = true.
Proof. vm_compute. reflexivity. Qed.

Lemma CHAR_MAP_glyph_ok (c : ascii) (g : list string) :
  dict_get CHAR_MAP c = Some g -> glyph_ok g = true.
Proof.
  intros H. apply dict_get_In in H.
  pose proof CHAR_MAP_ok as Hall. rewrite forallb_forall in Hall.
  exact (Hall _ H).
Qed.

Lemma glyph_ok_shape (g : list string) :
  glyph_ok g = true ->
  List.length g = 7%nat
  /\ (forall i, (i < 7)%nat -> Str.len (nth i g "") = Str.len (nth 0 g ""))
  /\ 3 <= Str.len (nth 0 g "") <= 5
  /\ Str.all_zero (nth 5 g "") /\ Str.all_zero (nth 6 g "").
Proof.
  unfold glyph_ok. destruct g as [| row0 g']; [discriminate |].
  set (g := row0 :: g').
  rewrite !andb_true_iff, forallb_forall.
  intros [[[[[Hlen Hrows] Hlo] Hhi] H5] H6].
  apply Nat.eqb_eq in Hlen. apply Nat.leb_le in Hlo, Hhi.
  repeat split.
  - exact Hlen.
  - intros i Hi. unfold Str.len. f_equal. apply Nat.eqb_eq.
    apply Hrows. apply nth_In. lia.
  - unfold Str.len. simpl nth. lia.
  - unfold Str.len. simpl nth. lia.
  - now apply StrFacts.zero_row_all_zero.
  - now apply StrFacts.zero_row_all_zero.
Qed.

Lemma supported_get (c : ascii) :
  supported c = true ->
  exists row0 g', dict_get CHAR_MAP c = Some (row0 :: g').
Proof.
  unfold supported. destruct (dict_get CHAR_MAP c) as [[| row0 g'] |];
    try discriminate. intros _. now exists row0, g'.
Qed.

Lemma supported_glyph_ok (c : ascii) :
  supported c = true -> glyph_ok (glyph c) = true.
Proof.
  intros H. destruct (supported_get c H) as (row0 & g' & Hg).
  unfold glyph. rewrite Hg. now apply CHAR_MAP_glyph_ok with c.
Qed.

Lemma cell_width_bounds (c : ascii) :
  supported c = true -> 4 <= cell_width c <= 6.
Proof.
  intros H. apply supported_glyph_ok, glyph_ok_shape in H.
  unfold cell_width. lia.
Qed.

(** X18. [get_char_width] does not look at the case of the character. It is
    the width of every row of the glyph, between 3 and 5, for a character
    that has a glyph once lowered, and 0 for any other. *)
Lemma get_char_width_rows (char : ascii) :
  get_char_width (Str.lower_char char) = get_char_width char
  /\ if supported (Str.lower_char char)
     then 3 <= get_char_width char <= 5
          /\ forall i, (i < 7)%nat ->
               Str.len (nth i (glyph (Str.lower_char char)) "")
               = get_char_width char
     else get_char_width char = 0.
Proof.
  split.
  { unfold get_char_width.
    replace (Str.lower_char (Str.lower_char char)) with (Str.lower_char char);
      [reflexivity |].
    destruct char as [[] [] [] [] [] [] [] []]; vm_compute; reflexivity. }
  destruct (supported (Str.lower_char char)) eqn:Hs.
  - pose proof (supported_glyph_ok _ Hs) as Hok.
    apply glyph_ok_shape in Hok. destruct Hok as (_ & Hrows & Hw & _).
    destruct (supported_get _ Hs) as (row0 & g' & Hg).
    unfold get_char_width, glyph in *. rewrite Hg in *. simpl nth in Hw.
    split; [exact Hw | exact Hrows].
  - unfold supported, get_char_width in *.
    destruct (dict_get CHAR_MAP (Str.lower_char char)) as [[| row0 g'] |];
      (reflexivity || discriminate).
Qed.

(** ** One step of the loop *)

Lemma holds_initial : holds initial [].
Proof. repeat split. Qed.

Lemma append_rows_seq (g rows : list string) :
  List.length g = 7%nat -> List.length rows = 7%nat ->
  append_rows (seq 0 7) g rows =
  Some (map (fun i => nth i rows "" ++ (nth i g "" ++ "0"))%string (seq 0 7)).
Proof.
  intros Hg Hr.
  do 8 (destruct g as [| ? g]; try discriminate Hg).
  do 8 (destruct rows as [| ? rows]; try discriminate Hr).
  reflexivity.
Qed.

Lemma width_of_app (cs : list ascii) (c : ascii) :
  width_of (cs ++ [c]) = width_of cs + cell_width c.
Proof.
  unfold width_of. induction cs as [| x cs IH]; simpl; [lia |].
  rewrite IH. lia.
Qed.

Lemma drawn_row_app (i : nat) (cs : list ascii) (c : ascii) :
  drawn_row i (cs ++ [c]) =
  (drawn_row i cs ++ (nth i (glyph c) "" ++ "0"))%string.
Proof. unfold drawn_row. rewrite map_app. simpl map. apply StrFacts.join_app. Qed.

Lemma length_drawn (cs : list ascii) : List.length (drawn cs) = 7%nat.
Proof. reflexivity. Qed.

Lemma loop_body_unsupported (c : ascii) (a : acc) :
  supported c = false -> loop_body c a = Some (Continue a).
Proof.
  unfold supported, loop_body.
  destruct (dict_get CHAR_MAP c) as [[| row0 g'] |]; try discriminate;
    reflexivity.
Qed.

Lemma loop_body_break (c : ascii) (a : acc) :
  supported c = true -> total_width a + cell_width c > 52 ->
  loop_body c a = Some (Break a).
Proof.
  intros Hs Hw. destruct (supported_get c Hs) as (row0 & g' & Hg).
  unfold loop_body, cell_width, glyph in *. rewrite Hg in *. simpl nth in Hw.
  destruct (Z.gtb_spec (total_width a + (Str.len row0 + 1)) 52); [reflexivity | lia].
Qed.

Lemma loop_body_append (c : ascii) (a : acc) (cs : list ascii) :
  supported c = true -> total_width a + cell_width c <= 52 -> holds a cs ->
  exists a', loop_body c a = Some (Continue a') /\ holds a' (cs ++ [c]).
Proof.
  intros Hs Hw (Hrows & Hwidth & Hcs).
  pose proof (supported_glyph_ok c Hs) as Hok.
  apply glyph_ok_shape in Hok. destruct Hok as (Hlen & _).
  destruct (supported_get c Hs) as (row0 & g' & Hg).
  unfold loop_body, cell_width, glyph in *. rewrite Hg in *. simpl nth in Hw.
  destruct (Z.gtb_spec (total_width a + (Str.len row0 + 1)) 52); [lia |].
  rewrite append_rows_seq; [| exact Hlen | rewrite Hrows; apply length_drawn].
  eexists. split; [reflexivity |]. repeat split; cbn [bitmap_rows total_width].
  - rewrite Hrows. unfold drawn. cbn [seq map nth].
    rewrite !drawn_row_app. unfold glyph. rewrite Hg. reflexivity.
  - rewrite width_of_app, Hwidth. unfold cell_width, glyph. rewrite Hg.
    reflexivity.
  - rewrite forallb_app, Hcs. simpl. now rewrite Hs.
Qed.

(** Every exit of the body by [break] leaves the accumulators as they were:
    the width test comes before the rows are touched. *)
Lemma loop_body_break_inv (c : ascii) (a a' : acc) :
  loop_body c a = Some (Break a') ->
  a' = a /\ supported c = true /\ total_width a + cell_width c > 52.
Proof.
  unfold loop_body, supported, cell_width, glyph.
  destruct (dict_get CHAR_MAP c) as [[| row0 g'] |]; try discriminate.
  simpl nth.
  destruct (Z.gtb_spec (total_width a + (Str.len row0 + 1)) 52).
  - intros [= <-]. repeat split. lia.
  - destruct (append_rows _ _ _); discriminate.
Qed.

(** ** The whole loop *)

Lemma width_of_nonneg (cs : list ascii) : 0 <= width_of cs.
Proof.
  unfold width_of. induction cs as [| x cs IH]; simpl; [lia |].
  unfold cell_width at 1. pose proof (StrFacts.len_nonneg (nth 0 (glyph x) "")).
  lia.
Qed.

Lemma for_loop_holds (text : list ascii) :
  forall a cs0, holds a cs0 ->
  exists f, for_loop text a = Some f
            /\ holds (acc_of f) (cs0 ++ accepted text (width_of cs0)).
Proof.
  induction text as [| c text IH]; intros a cs0 Ha.
  - exists (Continue a). split; [reflexivity |]. simpl. now rewrite app_nil_r.
  - cbn [for_loop accepted].
    destruct (supported c) eqn:Hs.
    + assert (total_width a = width_of cs0) as Hw by apply Ha.
      destruct (Z.gtb_spec (width_of cs0 + cell_width c) 52) as [Hgt | Hle].
      * rewrite loop_body_break by (assumption || lia).
        exists (Break a). split; [reflexivity |]. simpl. now rewrite app_nil_r.
      * destruct (loop_body_append c a cs0 Hs ltac:(lia) Ha) as (a' & -> & Ha').
        destruct (IH a' _ Ha') as (f & Hf & Hh).
        exists f. split; [exact Hf |].
        rewrite width_of_app in Hh. now rewrite <- app_assoc in Hh.
    + rewrite loop_body_unsupported by assumption. now apply IH.
Qed.

Lemma accepted_prefix (text : list ascii) :
  forall w, exists rest, filter supported text = (accepted text w ++ rest)%list.
Proof.
  induction text as [| c text IH]; intros w; simpl.
  - now exists [].
  - destruct (supported c).
    + destruct (w + cell_width c >? 52).
      * now exists (c :: filter supported text).
      * destruct (IH (w + cell_width c)) as (rest & ->). now exists rest.
    + apply IH.
Qed.

Lemma accepted_width (text : list ascii) :
  forall w, w <= 52 -> w + width_of (accepted text w) <= 52.
Proof.
  induction text as [| c text IH]; intros w Hw; simpl.
  - lia.
  - destruct (supported c); [| now apply IH].
    destruct (Z.gtb_spec (w + cell_width c) 52); simpl; [lia |].
    specialize (IH (w + cell_width c) ltac:(lia)).
    fold (width_of (accepted text (w + cell_width c))). lia.
Qed.

Lemma accepted_supported (text : list ascii) :
  forall w, forallb supported (accepted text w) = true.
Proof.
  induction text as [| c text IH]; intros w; simpl; [reflexivity |].
  destruct (supported c) eqn:Hs; [| apply IH].
  destruct (w + cell_width c >? 52); simpl; [reflexivity |].
  now rewrite Hs, IH.
Qed.

Lemma shift_down_drawn (cs : list ascii) :
  shift_down (drawn cs) =
  Some (Str.mul "0" (Str.len (drawn_row 0 cs))
        :: map (fun i => drawn_row i cs) (seq 0 6)).
Proof. reflexivity. Qed.

(** Every row of a drawing of supported characters is as long as the
    characters are wide. *)
Lemma len_drawn_row (i : nat) (cs : list ascii) :
  (i < 7)%nat -> forallb supported cs = true ->
  Str.len (drawn_row i cs) = width_of cs.
Proof.
  intros Hi. induction cs as [| c cs IH]; intros Hcs; [reflexivity |].
  simpl in Hcs. apply andb_true_iff in Hcs. destruct Hcs as [Hc Hcs].
  unfold drawn_row, width_of in *. cbn [map Str.join fold_right].
  fold (Str.join (map (fun c => (nth i (glyph c) "" ++ "0")%string) cs)).
  rewrite !StrFacts.len_append, IH by assumption.
  apply supported_glyph_ok, glyph_ok_shape in Hc.
  destruct Hc as (_ & Hrows & _). unfold cell_width. rewrite (Hrows i Hi).
  reflexivity.
Qed.

(** Rows 5 and 6 of a drawing of supported characters have no ink. *)
Lemma all_zero_drawn_row (i : nat) (cs : list ascii) :
  i = 5%nat \/ i = 6%nat -> forallb supported cs = true ->
  Str.all_zero (drawn_row i cs).
Proof.
  intros Hi. induction cs as [| c cs IH]; intros Hcs; [constructor |].
  simpl in Hcs. apply andb_true_iff in Hcs. destruct Hcs as [Hc Hcs].
  unfold drawn_row in *. cbn [map Str.join fold_right].
  fold (Str.join (map (fun c => (nth i (glyph c) "" ++ "0")%string) cs)).
  rewrite !StrFacts.all_zero_append. repeat split.
  - apply supported_glyph_ok, glyph_ok_shape in Hc.
    destruct Hc as (_ & _ & _ & H5 & H6). now destruct Hi as [-> | ->].
  - repeat constructor.
  - now apply IH.
Qed.

(** The loop and the shift together, on any text. *)
Lemma rasterize (text : list ascii) :
  exists f, for_loop text initial = Some f
            /\ bitmap_rows (acc_of f) = drawn (accepted text 0)
            /\ shift_down (bitmap_rows (acc_of f))
               = Some (bitmap_of (accepted text 0)).
Proof.
  destruct (for_loop_holds text initial [] holds_initial) as (f & Hf & Hh).
  simpl in Hh. destruct Hh as (Hrows & _ & Hcs).
  exists f. repeat split; try assumption.
  rewrite Hrows, shift_down_drawn. unfold bitmap_of.
  now rewrite len_drawn_row by (lia || assumption).
Qed.

Lemma build_bitmap_eq (text : string) :
  build_bitmap text
  = Some (bitmap_of (accepted (Str.chars (prepared text)) 0)).
Proof.
  unfold build_bitmap.
  destruct (rasterize (Str.chars (prepared text))) as (f & -> & _ & ->).
  reflexivity.
Qed.

Lemma build_bitmap_unified_eq (text : string) :
  build_bitmap_unified text
  = Some (bitmap_of (accepted (Str.chars (Str.lower text)) 0)).
Proof.
  unfold build_bitmap_unified.
  destruct (rasterize (Str.chars (Str.lower text))) as (f & -> & _ & ->).
  reflexivity.
Qed.

Lemma bitmap_of_rows (cs : list ascii) :
  forallb supported cs = true ->
  Forall (fun r => Str.len r = width_of cs) (bitmap_of cs).
Proof.
  intros Hcs. unfold bitmap_of. cbn [seq map].
  repeat constructor;
    try (apply len_drawn_row; [lia | assumption]).
  apply StrFacts.len_mul_1, width_of_nonneg.
Qed.

Lemma prepared_eq (text : string) :
  prepared text = Str.take 10 (Str.lower text).
Proof. reflexivity. Qed.

Lemma for_loop_app (pre rest : list ascii) :
  forall a0 a, for_loop pre a0 = Some (Continue a) ->
  for_loop (pre ++ rest) a0 = for_loop rest a.
Proof.
  induction pre as [| c pre IH]; intros a0 a H; simpl in *.
  - now injection H as ->.
  - destruct (loop_body c a0) as [[a' | a'] |]; try discriminate.
    now apply IH.
Qed.

Lemma for_loop_skip (pre post : list ascii) (c : ascii) :
  supported c = false ->
  forall a, for_loop (pre ++ c :: post) a = for_loop (pre ++ post) a.
Proof.
  intros Hc. induction pre as [| x pre IH]; intros a; simpl.
  - now rewrite loop_body_unsupported.
  - destruct (loop_body x a) as [[a' | a'] |]; try reflexivity. apply IH.
Qed.

(** The loop on the beginning of a text draws the beginning of what it draws
    on the whole text. *)
Lemma accepted_firstn (text : list ascii) :
  forall n w,
    exists rest, accepted text w = (accepted (firstn n text) w ++ rest)%list.
Proof.
  induction text as [| c text IH]; intros n w.
  - exists []. now destruct n.
  - destruct n as [| n]; [eexists; reflexivity |].
    cbn [firstn accepted]. destruct (supported c).
    + destruct (w + cell_width c >? 52); [now exists [] |].
      destruct (IH n (w + cell_width c)) as (rest & ->). now exists rest.
    + apply IH.
Qed.

Lemma width_of_append (cs ds : list ascii) :
  width_of (cs ++ ds) = width_of cs + width_of ds.
Proof.
  unfold width_of. induction cs as [| x cs IH]; simpl; [lia |].
  rewrite IH. lia.
Qed.

Lemma join_append (l1 l2 : list string) :
  Str.join (l1 ++ l2) = (Str.join l1 ++ Str.join l2)%string.
Proof.
  unfold Str.join. induction l1 as [| x l1 IH]; simpl; [reflexivity |].
  now rewrite IH, StrFacts.append_assoc.
Qed.

Lemma drawn_row_append (i : nat) (cs ds : list ascii) :
  drawn_row i (cs ++ ds) = (drawn_row i cs ++ drawn_row i ds)%string.
Proof. unfold drawn_row. now rewrite map_app, join_append. Qed.

Lemma mul_add (s : string) (a b : Z) :
  0 <= a -> 0 <= b -> Str.mul s (a + b) = (Str.mul s a ++ Str.mul s b)%string.
Proof.
  intros Ha Hb. unfold Str.mul.
  now rewrite Z2Nat.inj_add, repeat_app, join_append by assumption.
Qed.

Lemma bitmap_of_append (cs ds : list ascii) :
  bitmap_of (cs ++ ds) = hcat (bitmap_of cs) (bitmap_of ds).
Proof.
  unfold bitmap_of, hcat. cbn [seq map combine].
  rewrite width_of_append, mul_add by apply width_of_nonneg.
  now rewrite !drawn_row_append.
Qed.

(** ** The rasterizer: the properties of the specification *)

(** C1. For every input string, [build_bitmap] returns exactly 7 rows, all
    rows have the same length, and row 0 of the returned bitmap consists of
    the character 0 only. *)
Theorem build_bitmap_seven_rows (text : string) :
  exists bitmap,
    build_bitmap text = Some bitmap
    /\ List.length bitmap = 7%nat
    /\ (exists w, Forall (fun r => Str.len r = w) bitmap)
    /\ Str.all_zero (nth 0 bitmap "").
Proof.
  rewrite build_bitmap_eq.
  set (cs := accepted (Str.chars (prepared text)) 0).
  exists (bitmap_of cs). repeat split.
  - exists (width_of cs). apply bitmap_of_rows, accepted_supported.
  - apply StrFacts.all_zero_mul.
Qed.

(** C2. For every input string, every row of the bitmap [build_bitmap]
    returns is at most 52 long, and the bitmap is made of whole glyphs: under
    its row of zeros it is the drawing, glyph after glyph, of the first
    supported characters [cs] of the text the loop runs over, no glyph cut.
    The body of the loop tests the width before it appends: when it breaks,
    the accumulators are as they were. *)
Theorem build_bitmap_width_bound (text : string) :
  exists bitmap cs rest,
    build_bitmap text = Some bitmap
    /\ Forall (fun r => Str.len r <= 52) bitmap
    /\ filter supported (Str.chars (prepared text)) = (cs ++ rest)%list
    /\ bitmap = Str.mul "0" (width_of cs) :: firstn 6 (drawn cs)
    /\ Forall (fun r => Str.len r = width_of cs) bitmap
    /\ (forall c a,
          match loop_body c a with
          | Some (Break a') => a' = a
          | _ => True
          end).
Proof.
  rewrite build_bitmap_eq.
  set (cs := accepted (Str.chars (prepared text)) 0).
  destruct (accepted_prefix (Str.chars (prepared text)) 0) as (rest & Hrest).
  pose proof (accepted_width (Str.chars (prepared text)) 0 ltac:(lia)) as Hw.
  pose proof (bitmap_of_rows cs (accepted_supported _ _)) as Hrows.
  exists (bitmap_of cs), cs, rest. repeat split.
  - eapply Forall_impl; [| exact Hrows]. simpl. fold cs in Hw. lia.
  - exact Hrest.
  - exact Hrows.
  - intros c a. destruct (loop_body c a) as [[a' | a'] |] eqn:E; try exact I.
    now apply loop_body_break_inv in E.
Qed.

(** C3. [build_bitmap("1")] is a bitmap of 7 rows of width 4: a row of
    zeros, the five inked rows of the glyph of 1 with one spacing column
    each, and a row of zeros. *)
Theorem build_bitmap_digit_one :
  build_bitmap "1"
  = Some ["0000"; "0100"; "1100"; "0100"; "0100"; "1110"; "0000"]
  /\ dict_get CHAR_MAP "1"
     = Some ["010"; "110"; "010"; "010"; "111"; "000"; "000"]
  /\ map Str.len ["0000"; "0100"; "1100"; "0100"; "0100"; "1110"; "0000"]
     = repeat 4 7.
Proof. repeat split. Qed.

(** C10. For every input string, the last row of the bitmap [build_bitmap]
    returns consists of the character 0 only, as the first does: it is row 5
    of what the loop accumulated, and rows 5 and 6 of every glyph of
    [CHAR_MAP] are blank. *)
Theorem build_bitmap_last_row_blank (text : string) :
  exists bitmap f,
    build_bitmap text = Some bitmap
    /\ for_loop (Str.chars (prepared text)) initial = Some f
    /\ Str.all_zero (nth 6 bitmap "")
    /\ Str.all_zero (nth 0 bitmap "")
    /\ nth 6 bitmap "" = nth 5 (bitmap_rows (acc_of f)) ""
    /\ forallb (fun kv => zero_row (nth 5 (snd kv) "")
                          && zero_row (nth 6 (snd kv) "")) CHAR_MAP = true.
Proof.
  rewrite build_bitmap_eq.
  destruct (rasterize (Str.chars (prepared text))) as (f & Hf & Hrows & _).
  set (cs := accepted (Str.chars (prepared text)) 0) in *.
  exists (bitmap_of cs), f. repeat split.
  - exact Hf.
  - apply all_zero_drawn_row; [now left | apply accepted_supported].
  - apply StrFacts.all_zero_mul.
  - rewrite Hrows. reflexivity.
Qed.

(** C4, as the specification states it, fails: thirteen letters i fill the
    52 columns exactly, and the cut to 10 characters keeps only 40 of
    them. *)
Lemma pre_truncation_observable :
  build_bitmap "iiiiiiiiiiiii" <> build_bitmap_unified "iiiiiiiiiiiii"
  /\ option_map (map Str.len) (build_bitmap "iiiiiiiiiiiii")
     = Some (repeat 40 7)
  /\ option_map (map Str.len) (build_bitmap_unified "iiiiiiiiiiiii")
     = Some (repeat 52 7).
Proof.
  repeat split.
  vm_compute. discriminate.
Qed.

(** C4, amended. For every input string, the cut to 10 characters can only
    take glyphs away at the end: each row of the bitmap [build_bitmap]
    returns is the beginning of the same row of the bitmap the variant
    without the cut returns, and the two bitmaps are equal when the lowered
    text, the one the code cuts, has at most 10 characters. *)
Theorem pre_truncation_is_a_cut (text : string) :
  exists bitmap unified,
    build_bitmap text = Some bitmap
    /\ build_bitmap_unified text = Some unified
    /\ Forall2 (fun row row' => exists rest, row' = (row ++ rest)%string)
         bitmap unified
    /\ ((String.length (Str.lower text) <= 10)%nat -> bitmap = unified).
Proof.
  rewrite build_bitmap_eq, build_bitmap_unified_eq.
  rewrite prepared_eq, StrFacts.chars_take.
  set (cs := Str.chars (Str.lower text)).
  destruct (accepted_firstn cs 10 0) as (rest & Hrest).
  eexists. eexists. split; [reflexivity |]. split; [reflexivity |]. split.
  - rewrite Hrest, bitmap_of_append. unfold bitmap_of, hcat.
    cbn [seq map combine].
    repeat (apply Forall2_cons; [eexists; reflexivity |]). apply Forall2_nil.
  - intros Hlen. rewrite firstn_all2; [reflexivity |].
    unfold cs. rewrite StrFacts.length_chars. lia.
Qed.

Lemma pre_truncation_is_a_cut_witness :
  (String.length (Str.lower "hello") <= 10)%nat
  /\ build_bitmap "hello" = build_bitmap_unified "hello".
Proof.
  split; [vm_compute; lia |].
  destruct (pre_truncation_is_a_cut "hello") as (b & u & Hb & Hu & _ & Heq).
  rewrite Hb, Hu. f_equal. apply Heq. vm_compute. lia.
Defined.

(** C5. [build_bitmap("a#b")] is [build_bitmap("ab")]. In the loop a
    character without an entry in [CHAR_MAP] is passed over: the body goes on
    to the next character, not out of the loop, with the rows and the width
    as they were, and the loop gives what it gives without that character. *)
Theorem skip_then_continue :
  build_bitmap "a#b" = build_bitmap "ab"
  /\ dict_get CHAR_MAP "#" = None
  /\ (forall c, dict_get CHAR_MAP c = None ->
      forall a pre post,
        loop_body c a = Some (Continue a)
        /\ for_loop (pre ++ c :: post) a = for_loop (pre ++ post) a).
Proof.
  repeat split; try reflexivity.
  - unfold loop_body. now rewrite H.
  - apply for_loop_skip. unfold supported. now rewrite H.
Qed.

Lemma skip_then_continue_witness :
  dict_get CHAR_MAP "#" = None
  /\ loop_body "#" initial = Some (Continue initial)
  /\ for_loop (["a"; "#"; "b"]%char) initial = for_loop (["a"; "b"]%char) initial.
Proof.
  split; [reflexivity |].
  exact (proj2 (proj2 skip_then_continue) "#"%char eq_refl
           initial ["a"%char] ["b"%char]).
Defined.

(** C6. For every input string: when [build_bitmap(text)] leaves its loop
    by [break] at the character of index [k], [build_bitmap(text[:k])]
    returns the bitmap [build_bitmap(text)] returns. *)
Theorem monotonic_truncation (text : string) (k : nat) :
  breaks_at text k = true ->
  exists bitmap,
    build_bitmap text = Some bitmap
    /\ build_bitmap (Str.slice_to (Z.of_nat k) text) = Some bitmap.
Proof.
  unfold breaks_at. intros H.
  set (cs := Str.chars (prepared text)) in *.
  destruct (for_loop (firstn k cs) initial) as [[a |] |] eqn:Hpre;
    try discriminate.
  destruct (nth_error cs k) as [c |] eqn:Hk; try discriminate.
  destruct (loop_body c a) as [[| a'] |] eqn:Hc; try discriminate.
  apply loop_body_break_inv in Hc as Hinv. destruct Hinv as (-> & _).
  assert (k < List.length cs)%nat as Hlt
    by (apply nth_error_Some; now rewrite Hk).
  assert (List.length cs <= 10)%nat as Hcs.
  { unfold cs. rewrite prepared_eq, StrFacts.length_chars, StrFacts.length_take.
    lia. }
  destruct (nth_error_split cs k Hk) as (l1 & l2 & Ecs & Hl1).
  assert (firstn k cs = l1) as Efst.
  { rewrite Ecs, <- Hl1, firstn_app, Nat.sub_diag, firstn_all. simpl.
    apply app_nil_r. }
  assert (build_bitmap text = shift_down (bitmap_rows a)) as Hfull.
  { unfold build_bitmap. fold cs. rewrite Ecs.
    rewrite (for_loop_app l1 (c :: l2) initial a) by now rewrite <- Efst.
    simpl. now rewrite Hc. }
  assert (build_bitmap (Str.slice_to (Z.of_nat k) text)
          = shift_down (bitmap_rows a)) as Hcut.
  { unfold build_bitmap, Str.slice_to.
    destruct (Z.ltb_spec (Z.of_nat k) 0) as [Hneg | _]; [lia |].
    rewrite Nat2Z.id, prepared_eq, StrFacts.lower_take, StrFacts.take_take.
    replace (Nat.min 10 k) with (Nat.min k 10) by apply Nat.min_comm.
    rewrite <- StrFacts.take_take, StrFacts.chars_take.
    rewrite <- prepared_eq. fold cs. now rewrite Hpre. }
  rewrite Hcut, <- Hfull, build_bitmap_eq. eexists. split; reflexivity.
Qed.

Lemma monotonic_truncation_witness :
  breaks_at "mmmmmmmmm" 8 = true
  /\ exists bitmap,
       build_bitmap "mmmmmmmmm" = Some bitmap
       /\ build_bitmap (Str.slice_to 8 "mmmmmmmmm") = Some bitmap.
Proof.
  split; [vm_compute; reflexivity |].
  apply (monotonic_truncation "mmmmmmmmm" 8). vm_compute. reflexivity.
Defined.

(** ** The first Sunday *)

Lemma first_sunday_spec (d : Z) :
  Date.weekday (first_sunday d) = 6
  /\ d <= first_sunday d
  /\ (forall d', d <= d' < first_sunday d -> Date.weekday d' <> 6).
Proof.
  funelim (first_sunday d).
  - repeat split; [assumption | lia | intros d' Hd'; lia].
  - destruct H as (Hsun & Hle & Hnone). repeat split.
    + exact Hsun.
    + lia.
    + intros d' Hd'. destruct (Z.eq_dec d' d) as [-> | Hne]; [assumption |].
      apply Hnone. lia.
Qed.

Lemma first_sunday_within_week (d : Z) : first_sunday d <= d + 6.
Proof.
  destruct (first_sunday_spec d) as (_ & Hle & Hnone).
  destruct (Z_le_gt_dec (first_sunday d) (d + 6)) as [H | H]; [exact H |].
  exfalso.
  apply (Hnone (d + (6 - Date.weekday d))); unfold Date.weekday in *.
  - pose proof (Z.mod_pos_bound (d + 6) 7 ltac:(lia)). lia.
  - pose proof (Z.div_mod (d + 6) 7 ltac:(lia)) as Hdm.
    replace (d + (6 - (d + 6) mod 7) + 6) with (6 + (d + 6) / 7 * 7) by lia.
    rewrite Z.mod_add by lia. reflexivity.
Qed.

(** X17. The dates [write_string_to_git] builds for the years it accepts lie in
    the range of [datetime.date]: none of the date operations raises. *)
Lemma dates_in_range (year : Z) (row col : nat) :
  2000 <= year <= 2100 -> (row < 7)%nat -> (col < 52)%nat ->
  Date.min_ordinal <= Date.date year 1 1
  /\ commit_date (first_sunday (Date.date year 1 1)) row col
     <= Date.max_ordinal.
Proof.
  intros Hy Hr Hc.
  pose proof (first_sunday_within_week (Date.date year 1 1)) as Hw.
  unfold commit_date, Date.min_ordinal, Date.max_ordinal.
  assert (730000 <= Date.date year 1 1 <= 770000) as Hd.
  { unfold Date.date, Date.days_before_year, Date.days_before_month.
    simpl nth. simpl andb. cbv iota.
    pose proof (Z.div_mod (year - 1) 4 ltac:(lia)).
    pose proof (Z.mod_pos_bound (year - 1) 4 ltac:(lia)).
    pose proof (Z.div_mod (year - 1) 100 ltac:(lia)).
    pose proof (Z.mod_pos_bound (year - 1) 100 ltac:(lia)).
    pose proof (Z.div_mod (year - 1) 400 ltac:(lia)).
    pose proof (Z.mod_pos_bound (year - 1) 400 ltac:(lia)).
    lia. }
  lia.
Qed.

(** ** The emission loops *)

Lemma string_get_some (s : string) :
  forall n, (n < String.length s)%nat -> exists c, String.get n s = Some c.
Proof.
  induction s as [| x s IH]; intros n Hn; simpl in Hn; [lia |].
  destruct n as [| n]; simpl.
  - now exists x.
  - apply IH. lia.
Qed.

Lemma map_flat_map_list {A B C : Type} (f : B -> C) (g : A -> list B)
    (l : list A) :
  map f (flat_map g l) = flat_map (fun x => map f (g x)) l.
Proof.
  induction l as [| x l IH]; simpl; [reflexivity |].
  now rewrite map_app, IH.
Qed.

Lemma flat_map_filter {A B : Type} (p : A -> bool) (f : A -> B) (l : list A) :
  flat_map (fun x => if p x then [f x] else []) l = map f (filter p l).
Proof.
  induction l as [| x l IH]; simpl; [reflexivity |].
  destruct (p x); simpl; now rewrite IH.
Qed.

(** A loop whose body always returns, and adds to the calls a list that
    depends on the element only, returns, and adds these lists in order. *)
Lemma for_each_trace {A S : Type} (body : A -> S -> M S)
    (out : A -> list call) (l : list A) :
  (forall x, In x l ->
     forall s w, exists s', body x s w = (Ok s', (w ++ out x)%list)) ->
  forall s w, exists s', for_each l body s w = (Ok s', (w ++ flat_map out l)%list).
Proof.
  induction l as [| x l IH]; intros Hbody s w; simpl.
  - exists s. unfold ret. now rewrite app_nil_r.
  - destruct (Hbody x (or_introl eq_refl) s w) as (s1 & H1).
    unfold bind. rewrite H1.
    destruct (IH (fun y Hy => Hbody y (or_intror Hy)) s1 (w ++ out x)%list)
      as (s2 & H2).
    exists s2. now rewrite H2, app_assoc.
Qed.

Section Emission.

Variable commit_ok : Z -> bool.
Variable bitmap : list string.
Variable d : Z.
Variable W : nat.
Hypothesis seven_rows : List.length bitmap = 7%nat.
Hypothesis row_width : Forall (fun r => String.length r = W) bitmap.

Lemma emit_cell_trace (col row : nat) :
  (col < W)%nat -> (row < 7)%nat ->
  forall c w, exists c',
    emit_cell commit_ok bitmap d col row c w
    = (Ok c', (w ++ (if lit bitmap row col
                     then [Commit (commit_date d row col)] else []))%list).
Proof.
  intros Hcol Hrow c w.
  destruct (nth_error bitmap row) as [r |] eqn:Hr;
    [| apply nth_error_None in Hr; lia].
  assert (String.length r = W) as Hlen.
  { rewrite Forall_forall in row_width. apply row_width.
    eapply nth_error_In, Hr. }
  destruct (string_get_some r col ltac:(lia)) as (x & Hx).
  unfold emit_cell, lit, bind, lift, generate_commit, ret.
  rewrite Hr, Hx.
  destruct (Ascii.eqb x "1").
  - destruct (commit_ok _); eexists; reflexivity.
  - eexists. now rewrite app_nil_r.
Qed.

Lemma emission (c : counters) (w : list call) :
  exists c',
    for_each (seq 0 W)
      (fun col => for_each (seq 0 7) (emit_cell commit_ok bitmap d col)) c w
    = (Ok c',
       (w ++ map (fun '(row, col) => Commit (commit_date d row col))
               (flat_map
                  (fun col =>
                     map (fun row => (row, col))
                       (filter (fun row => lit bitmap row col) (seq 0 7)))
                  (seq 0 W)))%list).
Proof.
  rewrite map_flat_map_list.
  apply for_each_trace. intros col Hcol c0 w0.
  apply in_seq in Hcol.
  rewrite map_map, <- flat_map_filter.
  apply for_each_trace. intros row Hrow c1 w1.
  apply in_seq in Hrow.
  apply emit_cell_trace; lia.
Qed.

End Emission.

Lemma build_bitmap_dims (text : string) :
  exists bitmap W,
    build_bitmap text = Some bitmap
    /\ List.length bitmap = 7%nat
    /\ Forall (fun r => String.length r = W) bitmap.
Proof.
  rewrite build_bitmap_eq.
  set (cs := accepted (Str.chars (prepared text)) 0).
  exists (bitmap_of cs), (Z.to_nat (width_of cs)). repeat split.
  eapply Forall_impl; [| apply bitmap_of_rows, accepted_supported].
  unfold Str.len. fold cs. intros r Hr. lia.
Qed.

(** With a valid year and inside a repository, [write_string_to_git]
    returns, after one [git commit] for each lit cell. *)
Lemma write_string_to_git_runs (commit_ok : Z -> bool) (text : string)
    (year : Z) (w : list call) :
  2000 <= year <= 2100 ->
  exists bitmap c,
    build_bitmap text = Some bitmap
    /\ write_string_to_git true commit_ok text year w
       = (Ok c,
          (w ++ RevParse
             :: map (fun '(row, col) =>
                       Commit (commit_date
                                 (first_sunday (Date.date year 1 1)) row col))
                  (lit_cells bitmap))%list).
Proof.
  intros Hy.
  destruct (build_bitmap_dims text) as (bitmap & W & Hb & H7 & HW).
  unfold write_string_to_git.
  destruct (Z.ltb_spec year 2000); [lia |].
  destruct (Z.gtb_spec year 2100); [lia |].
  cbn [orb]. unfold bind at 1. unfold rev_parse. cbn [negb].
  unfold bind at 1. unfold lift at 1. rewrite Hb.
  destruct bitmap as [| row0 rows]; [discriminate H7 |].
  unfold bind at 1. unfold lift at 1. cbn [nth_error].
  assert (String.length row0 = W) as HW0 by now inversion HW.
  destruct (emission commit_ok (row0 :: rows)
              (first_sunday (Date.date year 1 1)) W H7 HW
              (mkCounters 0 0) (w ++ [RevParse])%list) as (c & Hc).
  exists (row0 :: rows), c. split; [reflexivity |].
  rewrite HW0, Hc. unfold lit_cells. cbn [nth]. rewrite HW0.
  now rewrite <- app_assoc.
Qed.

Lemma In_lit_cells (bitmap : list string) (row col : nat) :
  In (row, col) (lit_cells bitmap)
  <-> (row < 7)%nat
      /\ (col < String.length (nth 0 bitmap ""))%nat
      /\ lit bitmap row col = true.
Proof.
  unfold lit_cells. rewrite in_flat_map. split.
  - intros (col' & Hcol & Hin). apply in_map_iff in Hin.
    destruct Hin as (row' & [= <- <-] & Hrow).
    apply filter_In in Hrow. destruct Hrow as [Hrow Hlit].
    apply in_seq in Hcol, Hrow. repeat split; (lia || assumption).
  - intros (Hrow & Hcol & Hlit). exists col. split.
    + apply in_seq. lia.
    + apply in_map_iff. exists row. split; [reflexivity |].
      apply filter_In. split; [apply in_seq; lia | assumption].
Qed.

Lemma accepted_nil (text : list ascii) :
  accepted text 0 = [] -> filter supported text = [].
Proof.
  induction text as [| c text IH]; cbn [accepted filter]; [reflexivity |].
  destruct (supported c) eqn:Hs; [| exact IH].
  pose proof (cell_width_bounds c Hs).
  destruct (Z.gtb_spec (0 + cell_width c) 52); [lia | discriminate].
Qed.

Lemma width_of_zero (cs : list ascii) :
  forallb supported cs = true -> width_of cs = 0 -> cs = [].
Proof.
  destruct cs as [| c cs]; [reflexivity |]. simpl.
  intros H Hw. apply andb_true_iff in H. destruct H as [Hc _].
  pose proof (cell_width_bounds c Hc).
  pose proof (width_of_nonneg cs). unfold width_of in *. lia.
Qed.

(** ** The driver: the properties of the specification *)

(** C7. For every year, the date [write_string_to_git] starts from is the
    first Sunday on or after January 1 of the year: a Sunday, not before
    January 1, no Sunday between the two. The cell of row [row] and column
    [col] goes to that date plus [col * 7 + row] days, and for a year the
    function accepts, inside a repository, the calls of [git commit] are
    the dates of the lit cells of the bitmap, and of these only. In 2024
    the date is January 7; the cell of row 0 and column 0 goes to it, the
    cell of row 6 and column 1 goes 13 days later. *)
Theorem date_mapping (commit_ok : Z -> bool) (text : string) (year : Z)
    (w : list call) :
  let jan1 := Date.date year 1 1 in
  let anchor := first_sunday jan1 in
  (Date.weekday anchor = 6 /\ jan1 <= anchor
   /\ forall d, jan1 <= d < anchor -> Date.weekday d <> 6)
  /\ (forall row col,
        commit_date anchor row col = anchor + (Z.of_nat col * 7 + Z.of_nat row))
  /\ (2000 <= year <= 2100 ->
      exists bitmap c,
        build_bitmap text = Some bitmap
        /\ write_string_to_git true commit_ok text year w
           = (Ok c,
              (w ++ RevParse
                 :: map (fun '(row, col) => Commit (commit_date anchor row col))
                      (lit_cells bitmap))%list)
        /\ forall row col,
             In (row, col) (lit_cells bitmap)
             <-> (row < 7)%nat
                 /\ (col < String.length (nth 0 bitmap ""))%nat
                 /\ lit bitmap row col = true)
  /\ first_sunday (Date.date 2024 1 1) = Date.date 2024 1 7
  /\ commit_date (first_sunday (Date.date 2024 1 1)) 0 0
     = first_sunday (Date.date 2024 1 1)
  /\ commit_date (first_sunday (Date.date 2024 1 1)) 6 1
     = first_sunday (Date.date 2024 1 1) + 13.
Proof.
  intros jan1 anchor. split; [apply first_sunday_spec |].
  split; [intros row col; unfold commit_date; lia |].
  split; [| repeat split].
  intros Hy.
  destruct (write_string_to_git_runs commit_ok text year w Hy)
    as (bitmap & c & Hb & Hrun).
  exists bitmap, c.
  split; [exact Hb | split; [exact Hrun | intros row col; apply In_lit_cells]].
Qed.

Lemma date_mapping_witness :
  2000 <= 2024 <= 2100
  /\ exists bitmap c,
       build_bitmap "1" = Some bitmap
       /\ write_string_to_git true (fun _ => true) "1" 2024 []
          = (Ok c,
             ([] ++ RevParse
                :: map (fun '(row, col) =>
                          Commit (commit_date
                                    (first_sunday (Date.date 2024 1 1)) row col))
                     (lit_cells bitmap))%list).
Proof.
  split; [lia |].
  destruct (proj1 (proj2 (proj2 (date_mapping (fun _ => true) "1" 2024 [])))
              ltac:(lia)) as (bitmap & c & Hb & Hrun & _).
  exists bitmap, c. split; [exact Hb | exact Hrun].
Defined.

(** The digit 1 in 2024, every commit accepted: eight commits, on the days
    2, 5, 8 to 12 and 19 after Sunday, January 7. *)
Example write_string_to_git_2024 :
  write_string_to_git true (fun _ => true) "1" 2024 []
  = (Ok (mkCounters 8 0),
     RevParse
     :: map (fun n => Commit (Date.date 2024 1 7 + n))
          [2; 5; 8; 9; 10; 11; 12; 19]).
Proof. vm_compute. reflexivity. Qed.

(** C8. [write_string_to_git] takes a year outside 2000..2100 for a fatal
    error: it exits with status 1 and has made no call, so no record. A year
    inside 2000..2100 passes: the next thing the function does is to ask
    [git] for the repository, and inside a repository it returns. *)
Theorem year_validation (rev_parse_ok : bool) (commit_ok : Z -> bool)
    (text : string) (year : Z) (w : list call) :
  (year < 2000 \/ year > 2100 ->
   write_string_to_git rev_parse_ok commit_ok text year w = (Exit 1, w)
   /\ 1 <> 0)
  /\ (2000 <= year <= 2100 ->
      exists r w',
        write_string_to_git rev_parse_ok commit_ok text year w
        = (r, (w ++ RevParse :: w')%list)
        /\ (rev_parse_ok = true -> exists c, r = Ok c)).
Proof.
  split.
  - intros Hy. split; [| lia]. unfold write_string_to_git.
    destruct (Z.ltb_spec year 2000); [reflexivity |].
    destruct (Z.gtb_spec year 2100); [reflexivity | lia].
  - intros Hy. destruct rev_parse_ok.
    + destruct (write_string_to_git_runs commit_ok text year w Hy)
        as (bitmap & c & _ & Hrun).
      rewrite Hrun. eexists. eexists. split; [reflexivity |].
      intros _. now exists c.
    + exists (Exit 1), []. split; [| discriminate].
      unfold write_string_to_git.
      destruct (Z.ltb_spec year 2000); [lia |].
      destruct (Z.gtb_spec year 2100); [lia |]. reflexivity.
Qed.

Lemma year_validation_witness :
  (1999 < 2000 \/ 1999 > 2100)
  /\ write_string_to_git true (fun _ => true) "hi" 1999 [] = (Exit 1, [])
  /\ 2000 <= 2100 <= 2100
  /\ exists r w',
       write_string_to_git true (fun _ => true) "hi" 2100 []
       = (r, ([] ++ RevParse :: w')%list)
       /\ (true = true -> exists c, r = Ok c).
Proof.
  split; [lia |]. split.
  - apply (proj1 (year_validation true (fun _ => true) "hi" 1999 [])). lia.
  - split; [lia |].
    apply (proj2 (year_validation true (fun _ => true) "hi" 2100 [])). lia.
Defined.

(** C9. When the input gives no column (the text is empty, or none of the
    characters the loop sees is supported), [build_bitmap] returns seven
    rows of length 0, and the [__main__] block takes it for a fatal error:
    it exits with status 1 and has made no call, so no record. *)
Theorem empty_result (rev_parse_ok : bool) (commit_ok : Z -> bool)
    (text : string) (year : Z) (preview : bool) (w : list call)
    (bitmap : list string) :
  build_bitmap text = Some bitmap ->
  Str.len (nth 0 bitmap "") = 0 ->
  bitmap = repeat "" 7
  /\ filter supported (Str.chars (prepared text)) = []
  /\ main rev_parse_ok commit_ok text year preview w = (Exit 1, w)
  /\ 1 <> 0.
Proof.
  intros Hb Hw.
  assert (bitmap = repeat "" 7 /\ filter supported (Str.chars (prepared text)) = [])
    as [-> Hnone].
  { rewrite build_bitmap_eq in Hb. injection Hb as <-.
    set (cs := accepted (Str.chars (prepared text)) 0) in *.
    pose proof (accepted_supported (Str.chars (prepared text)) 0) as Hcs.
    fold cs in Hcs. unfold bitmap_of in Hw. cbn [nth] in Hw.
    rewrite StrFacts.len_mul_1 in Hw by apply width_of_nonneg.
    pose proof (width_of_zero cs Hcs Hw) as Ecs.
    split; [now rewrite Ecs | now apply accepted_nil]. }
  repeat split; try assumption; try lia.
  unfold main, bind, lift. now rewrite Hb.
Qed.

Lemma empty_result_witness :
  build_bitmap "#!" = Some (repeat "" 7)
  /\ main true (fun _ => true) "#!" 2024 false [] = (Exit 1, []).
Proof.
  split; [reflexivity |].
  apply (empty_result true (fun _ => true) "#!" 2024 false [] (repeat "" 7));
    reflexivity.
Defined.

(** ** More on the rasterizer *)

Lemma lower_char_idem (c : ascii) :
  Str.lower_char (Str.lower_char c) = Str.lower_char c.
Proof. destruct c as [[] [] [] [] [] [] [] []]; vm_compute; reflexivity. Qed.

Lemma lower_idem (s : string) : Str.lower (Str.lower s) = Str.lower s.
Proof.
  induction s as [| c s IH]; simpl; [reflexivity |].
  now rewrite lower_char_idem, IH.
Qed.

Lemma lower_append (s t : string) :
  Str.lower (s ++ t) = (Str.lower s ++ Str.lower t)%string.
Proof. induction s as [| c s IH]; simpl; [reflexivity | now rewrite IH]. Qed.

Lemma length_append (s t : string) :
  String.length (s ++ t) = (String.length s + String.length t)%nat.
Proof. induction s as [| c s IH]; simpl; [reflexivity | now rewrite IH]. Qed.

(** The cut keeps a lowered text of at most 10 characters whole. *)
Lemma prepared_whole (text : string) :
  (String.length (Str.lower text) <= 10)%nat -> prepared text = Str.lower text.
Proof. intros H. rewrite prepared_eq. now apply StrFacts.take_all. Qed.

Lemma length_accepted (text : list ascii) :
  forall w, (List.length (accepted text w) <= List.length text)%nat.
Proof.
  induction text as [| c text IH]; intros w; simpl; [lia |].
  destruct (supported c).
  - destruct (w + cell_width c >? 52); simpl; [lia |].
    specialize (IH (w + cell_width c)). lia.
  - specialize (IH w). lia.
Qed.

Lemma width_of_filter_bound (text : list ascii) :
  width_of (filter supported text) <= 6 * Z.of_nat (List.length text).
Proof.
  induction text as [| c text IH]; [simpl; lia |].
  cbn [filter List.length]. rewrite Nat2Z.inj_succ.
  destruct (supported c) eqn:Hs; [| lia].
  pose proof (cell_width_bounds c Hs). cbn [width_of fold_right].
  fold (width_of (filter supported text)). lia.
Qed.

(** When all the supported characters fit, the loop draws them all. *)
Lemma accepted_fits (text : list ascii) :
  forall w, w + width_of (filter supported text) <= 52 ->
  accepted text w = filter supported text.
Proof.
  induction text as [| c text IH]; intros w Hw; [reflexivity |].
  cbn [accepted filter] in *. destruct (supported c) eqn:Hs; [| now apply IH].
  cbn [width_of fold_right] in Hw. fold (width_of (filter supported text)) in Hw.
  pose proof (width_of_nonneg (filter supported text)).
  destruct (Z.gtb_spec (w + cell_width c) 52); [lia |].
  f_equal. apply IH. lia.
Qed.

(** X1. The rasterizer does not look at the case of the letters: two texts
    with the same lowered form give the same bitmap, and a text gives the
    bitmap of its lowered form. *)
Theorem build_bitmap_case_insensitive (s t : string) :
  Str.lower s = Str.lower t ->
  build_bitmap s = build_bitmap t
  /\ build_bitmap (Str.lower s) = build_bitmap t.
Proof.
  intros H. unfold build_bitmap, prepared.
  now rewrite lower_idem, H.
Qed.

Lemma build_bitmap_case_insensitive_witness :
  Str.lower "GitHub" = Str.lower "gIThUB"
  /\ build_bitmap "GitHub" = build_bitmap "gIThUB".
Proof.
  split; [reflexivity |].
  apply (build_bitmap_case_insensitive "GitHub" "gIThUB"). reflexivity.
Defined.

(** X2. Only the first ten characters of the text count, supported or not:
    [build_bitmap(text)] is [build_bitmap(text[:10])], and the bitmap shows
    at most [get_max_chars()] glyphs, all from these ten characters. *)
Theorem build_bitmap_first_ten (text : string) :
  build_bitmap text = build_bitmap (Str.slice_to 10 text)
  /\ exists cs rest,
       build_bitmap text = Some (bitmap_of cs)
       /\ Z.of_nat (List.length cs) <= get_max_chars 52 4 1
       /\ filter supported (Str.chars (Str.lower (Str.slice_to 10 text)))
          = (cs ++ rest)%list.
Proof.
  assert (prepared (Str.slice_to 10 text) = prepared text) as Hp.
  { change (Str.slice_to 10 text) with (Str.take 10 text).
    rewrite !prepared_eq, StrFacts.lower_take, StrFacts.take_take.
    reflexivity. }
  split.
  - unfold build_bitmap. now rewrite Hp.
  - set (cs := Str.chars (prepared text)).
    destruct (accepted_prefix cs 0) as (rest & Hrest).
    exists (accepted cs 0), rest. repeat split.
    + apply build_bitmap_eq.
    + pose proof (length_accepted cs 0) as Hlen.
      assert (List.length cs <= 10)%nat.
      { unfold cs. rewrite prepared_eq, StrFacts.length_chars,
          StrFacts.length_take. lia. }
      change (get_max_chars 52 4 1) with 10. lia.
    + change (Str.slice_to 10 text) with (Str.take 10 text).
      rewrite StrFacts.lower_take, <- prepared_eq. exact Hrest.
Qed.

(** X3. A text whose lowered form, the one the code cuts and loops over,
    has at most 8 characters is never truncated: the loop does not break,
    and the bitmap shows every supported character of the lowered text. *)
Theorem short_text_in_full (text : string) :
  (String.length (Str.lower text) <= 8)%nat ->
  build_bitmap text
  = Some (bitmap_of (filter supported (Str.chars (Str.lower text))))
  /\ forall k, breaks_at text k = false.
Proof.
  intros Hlen.
  assert (prepared text = Str.lower text) as Hp by (apply prepared_whole; lia).
  assert (List.length (Str.chars (Str.lower text)) <= 8)%nat as Hcs
    by now rewrite StrFacts.length_chars.
  split.
  - rewrite build_bitmap_eq, Hp. f_equal. f_equal. apply accepted_fits.
    pose proof (width_of_filter_bound (Str.chars (Str.lower text))). lia.
  - intros k. unfold breaks_at. rewrite Hp.
    set (cs := Str.chars (Str.lower text)) in *.
    destruct (for_loop (firstn k cs) initial) as [[a | a] |] eqn:Hpre;
      try reflexivity.
    destruct (nth_error cs k) as [c |] eqn:Hk; try reflexivity.
    destruct (loop_body c a) as [[a' | a'] |] eqn:Hc; try reflexivity.
    exfalso.
    apply loop_body_break_inv in Hc. destruct Hc as (_ & Hs & Hgt).
    destruct (for_loop_holds (firstn k cs) initial [] holds_initial)
      as (f & Hf & Hh).
    rewrite Hpre in Hf. injection Hf as <-. simpl in Hh.
    destruct Hh as (_ & Hw & _).
    pose proof (accepted_width (firstn k cs) 0 ltac:(lia)) as Hacc.
    pose proof (accepted_prefix (firstn k cs) 0) as (rest & Hrest).
    pose proof (width_of_filter_bound (firstn k cs)) as Hb.
    rewrite Hrest, width_of_append in Hb.
    pose proof (width_of_nonneg rest).
    pose proof (cell_width_bounds c Hs).
    assert (k < List.length cs)%nat
      by (apply nth_error_Some; now rewrite Hk).
    rewrite length_firstn in Hb. lia.
Qed.

Lemma short_text_in_full_witness :
  (String.length (Str.lower "wwwwwwww") <= 8)%nat
  /\ build_bitmap "wwwwwwww"
     = Some (bitmap_of (filter supported (Str.chars (Str.lower "wwwwwwww")))).
Proof.
  split; [vm_compute; lia |].
  apply (short_text_in_full "wwwwwwww"). vm_compute. lia.
Defined.

(** X4. Rendering composes: when the lowered form of two texts joined, the
    one the code cuts and loops over, has at most 10 characters and all its
    supported characters fit in the 52 columns, the bitmap of the two texts
    joined is the bitmap of the first with the bitmap of the second to its
    right, row by row. *)
Theorem build_bitmap_concat (s t : string) :
  (String.length (Str.lower (s ++ t)) <= 10)%nat ->
  width_of (filter supported (Str.chars (Str.lower (s ++ t)))) <= 52 ->
  exists bs bt,
    build_bitmap s = Some bs
    /\ build_bitmap t = Some bt
    /\ build_bitmap (s ++ t) = Some (hcat bs bt).
Proof.
  intros Hlen Hfit.
  rewrite lower_append, length_append in Hlen.
  rewrite lower_append, StrFacts.chars_append, filter_app, width_of_append
    in Hfit.
  pose proof (width_of_nonneg (filter supported (Str.chars (Str.lower s)))).
  pose proof (width_of_nonneg (filter supported (Str.chars (Str.lower t)))).
  rewrite !build_bitmap_eq.
  rewrite !prepared_whole by (rewrite ?lower_append, ?length_append; lia).
  rewrite lower_append, StrFacts.chars_append.
  rewrite !accepted_fits
    by (rewrite ?filter_app, ?width_of_append; lia).
  rewrite filter_app, bitmap_of_append.
  eexists. eexists. repeat split.
Qed.

Lemma build_bitmap_concat_witness :
  (String.length (Str.lower ("hello" ++ "world")) <= 10)%nat
  /\ width_of (filter supported (Str.chars (Str.lower ("hello" ++ "world"))))
     <= 52
  /\ exists bs bt,
       build_bitmap "hello" = Some bs
       /\ build_bitmap "world" = Some bt
       /\ build_bitmap ("hello" ++ "world") = Some (hcat bs bt).
Proof.
  split; [vm_compute; lia |]. split; [vm_compute; discriminate |].
  apply (build_bitmap_concat "hello" "world"); vm_compute;
    [lia | discriminate].
Defined.

Lemma CHAR_MAP_bits :
  forallb (fun kv => forallb (fun r => forallb is_bit (Str.chars r)) (snd kv))
    CHAR_MAP = true.
Proof. vm_compute. reflexivity. Qed.

Lemma glyph_row_bits (c : ascii) (i : nat) :
  forallb is_bit (Str.chars (nth i (glyph c) "")) = true.
Proof.
  unfold glyph. destruct (dict_get CHAR_MAP c) as [g |] eqn:Hg.
  - apply dict_get_In in Hg.
    pose proof CHAR_MAP_bits as Hall. rewrite forallb_forall in Hall.
    specialize (Hall _ Hg). simpl in Hall. rewrite forallb_forall in Hall.
    destruct (nth_in_or_default i g "") as [Hin | ->]; [now apply Hall | reflexivity].
  - now destruct i.
Qed.

Lemma drawn_row_bits (i : nat) (cs : list ascii) :
  forallb is_bit (Str.chars (drawn_row i cs)) = true.
Proof.
  induction cs as [| c cs IH]; [reflexivity |].
  unfold drawn_row in *. cbn [map Str.join fold_right].
  fold (Str.join (map (fun c => (nth i (glyph c) "" ++ "0")%string) cs)).
  rewrite !StrFacts.chars_append, !forallb_app, glyph_row_bits, IH.
  reflexivity.
Qed.

Lemma mul_zero_bits (n : Z) : forallb is_bit (Str.chars (Str.mul "0" n)) = true.
Proof.
  unfold Str.mul. induction (Z.to_nat n) as [| k IH]; [reflexivity |].
  cbn [repeat Str.join fold_right]. fold (Str.join (repeat "0"%string k)).
  now rewrite StrFacts.chars_append, forallb_app, IH.
Qed.

(** X5. For every input string, the bitmap [build_bitmap] returns holds no
    character but the digits 0 and 1. *)
Theorem build_bitmap_binary (text : string) :
  exists bitmap,
    build_bitmap text = Some bitmap
    /\ Forall (fun r => forallb is_bit (Str.chars r) = true) bitmap.
Proof.
  rewrite build_bitmap_eq. eexists. split; [reflexivity |].
  unfold bitmap_of. cbn [seq map].
  repeat constructor; (apply mul_zero_bits || apply drawn_row_bits).
Qed.

Lemma bitmap_of_ends_blank (cs : list ascii) :
  forallb supported cs = true ->
  Forall (fun r => r = "" \/ exists r', r = (r' ++ "0")%string) (bitmap_of cs).
Proof.
  intros Hcs. destruct cs as [| c0 cs0] using rev_ind.
  - unfold bitmap_of. cbn. repeat constructor; now left.
  - clear IHcs0. rewrite forallb_app in Hcs. apply andb_true_iff in Hcs.
    destruct Hcs as [_ Hc]. simpl in Hc. rewrite andb_true_r in Hc.
    pose proof (cell_width_bounds c0 Hc) as Hw.
    unfold bitmap_of. cbn [seq map].
    rewrite width_of_app.
    replace (width_of cs0 + cell_width c0)
      with ((width_of cs0 + (cell_width c0 - 1)) + 1) by lia.
    rewrite mul_add by (pose proof (width_of_nonneg cs0); lia).
    rewrite !drawn_row_app, <- !StrFacts.append_assoc.
    repeat (apply Forall_cons; [right; eexists; reflexivity |]).
    apply Forall_nil.
Qed.

(** X6. The spacing column after the last glyph is kept: for every input
    string, every row of the bitmap is empty or ends with the character 0,
    so the last column of a bitmap that is not empty is blank. *)
Theorem build_bitmap_trailing_space (text : string) :
  exists bitmap,
    build_bitmap text = Some bitmap
    /\ Forall (fun r => r = "" \/ exists r', r = (r' ++ "0")%string) bitmap.
Proof.
  rewrite build_bitmap_eq. eexists. split; [reflexivity |].
  apply bitmap_of_ends_blank, accepted_supported.
Qed.

(** ** More on the driver *)

Lemma all_zero_get (r : string) (col : nat) (c : ascii) :
  Str.all_zero r -> String.get col r = Some c -> c = "0"%char.
Proof.
  unfold Str.all_zero, Str.chars. revert col.
  induction r as [| x r IH]; intros col Hall Hget; [discriminate |].
  inversion Hall as [| ? ? Hx Hr]; subst.
  destruct col as [| col]; simpl in Hget.
  - now injection Hget as <-.
  - now apply IH with col.
Qed.

Lemma get_before_last (r : string) (x c : ascii) :
  forall col, String.get col (r ++ String x "") = Some c -> c <> x ->
  (col < String.length r)%nat.
Proof.
  induction r as [| y r IH]; intros col Hget Hne; simpl in *.
  - destruct col; [injection Hget as <-; congruence | discriminate].
  - destruct col as [| col]; [lia |]. apply IH in Hget; [lia | assumption].
Qed.

(** The ink of a bitmap of [build_bitmap]: rows 1 to 5, columns 0 to 50. *)
Lemma build_bitmap_ink (text : string) (bitmap : list string)
    (row col : nat) :
  build_bitmap text = Some bitmap -> lit bitmap row col = true ->
  (1 <= row <= 5)%nat /\ (col <= 50)%nat.
Proof.
  rewrite build_bitmap_eq. intros [= <-].
  set (cs := accepted (Str.chars (prepared text)) 0).
  pose proof (accepted_supported (Str.chars (prepared text)) 0) as Hcs.
  pose proof (accepted_width (Str.chars (prepared text)) 0 ltac:(lia)) as Hw.
  fold cs in Hcs, Hw.
  pose proof (bitmap_of_rows cs Hcs) as Hlen.
  pose proof (bitmap_of_ends_blank cs Hcs) as Hend.
  unfold lit. destruct (nth_error (bitmap_of cs) row) as [r |] eqn:Hr;
    [| discriminate].
  destruct (String.get col r) as [c |] eqn:Hc; [| discriminate].
  intros Hone. apply Ascii.eqb_eq in Hone. subst c.
  assert (In r (bitmap_of cs)) as Hin by (eapply nth_error_In, Hr).
  rewrite Forall_forall in Hlen, Hend.
  specialize (Hlen r Hin). specialize (Hend r Hin).
  split.
  - assert (row < 7)%nat as Hrow.
    { change 7%nat with (List.length (bitmap_of cs)).
      apply nth_error_Some. rewrite Hr. discriminate. }
    assert (row <> 0 /\ row <> 6)%nat as [H0 H6]; [| lia].
    split; intros ->; unfold bitmap_of in Hr; cbn in Hr;
      injection Hr as <-.
    + pose proof (all_zero_get _ _ _ (StrFacts.all_zero_mul _) Hc).
      discriminate.
    + pose proof (all_zero_get _ _ _
                    (all_zero_drawn_row 5 cs (or_introl eq_refl) Hcs) Hc).
      discriminate.
  - destruct Hend as [-> | (r' & ->)]; [destruct col; discriminate |].
    apply get_before_last in Hc; [| discriminate].
    unfold Str.len in Hlen. rewrite length_append in Hlen.
    simpl String.length in Hlen. lia.
Qed.

Lemma year_length (year : Z) :
  Date.date year 1 1 + 365 <= Date.date (year + 1) 1 1.
Proof.
  unfold Date.date, Date.days_before_year, Date.days_before_month.
  simpl nth. simpl andb. cbv iota. cbv zeta.
  replace (year + 1 - 1) with (year - 1 + 1) by lia.
  set (y := year - 1).
  Z.to_euclidean_division_equations. lia.
Qed.

Lemma weekday_of_cell (d : Z) (row col : nat) :
  Date.weekday d = 6 ->
  Date.weekday (commit_date d row col) = (6 + Z.of_nat row) mod 7.
Proof.
  unfold Date.weekday, commit_date. intros Hd.
  replace (d + (Z.of_nat row + Z.of_nat col * 7) + 6)
    with ((d + 6) + Z.of_nat row + Z.of_nat col * 7) by lia.
  rewrite Z.mod_add by lia.
  rewrite <- Zplus_mod_idemp_l, Hd. reflexivity.
Qed.

(** *** The order of the commits *)

Lemma StronglySorted_map {A B : Type} (R : A -> A -> Prop)
    (R' : B -> B -> Prop) (f : A -> B) (l : list A) :
  (forall a b, R a b -> R' (f a) (f b)) ->
  StronglySorted R l -> StronglySorted R' (map f l).
Proof.
  intros Hf Hl. induction Hl as [| a l Hl IH Ha]; simpl; constructor.
  - exact IH.
  - rewrite Forall_forall in *. intros y Hy. apply in_map_iff in Hy.
    destruct Hy as (b & <- & Hb). apply Hf. now apply Ha.
Qed.

Lemma StronglySorted_filter_of {A : Type} (R : A -> A -> Prop)
    (q : A -> bool) (l : list A) :
  StronglySorted R l -> StronglySorted R (filter q l).
Proof.
  intros Hl. induction Hl as [| a l Hl IH Ha]; simpl; [constructor |].
  destruct (q a); [| exact IH]. constructor; [exact IH |].
  rewrite Forall_forall in *. intros y Hy. apply filter_In in Hy.
  now apply Ha.
Qed.

Lemma StronglySorted_append {A : Type} (R : A -> A -> Prop) (l1 l2 : list A) :
  StronglySorted R l1 -> StronglySorted R l2 ->
  (forall x y, In x l1 -> In y l2 -> R x y) ->
  StronglySorted R (l1 ++ l2).
Proof.
  intros H1 H2 H12. induction H1 as [| a l1 H1 IH Ha]; simpl; [exact H2 |].
  constructor.
  - apply IH. intros x y Hx Hy. apply H12; [now right | exact Hy].
  - apply Forall_app. split; [exact Ha |].
    rewrite Forall_forall. intros y Hy. apply H12; [now left | exact Hy].
Qed.

Lemma StronglySorted_seq (a n : nat) : StronglySorted lt (seq a n).
Proof.
  revert a. induction n as [| n IH]; intros a; simpl; constructor.
  - apply IH.
  - rewrite Forall_forall. intros y Hy. apply in_seq in Hy. lia.
Qed.

Lemma StronglySorted_NoDup (l : list Z) : StronglySorted Z.lt l -> NoDup l.
Proof.
  intros Hl. induction Hl as [| a l Hl IH Ha]; constructor; [| exact IH].
  rewrite Forall_forall in Ha. intros Hin. specialize (Ha a Hin). lia.
Qed.

(** The lit cells come in the order of their indices, whatever the
    bitmap. *)
Lemma lit_cells_sorted (bitmap : list string) :
  StronglySorted lt (map cell_index (lit_cells bitmap)).
Proof.
  unfold lit_cells. generalize (String.length (nth 0 bitmap "")) as W.
  induction W as [| W IH]; [constructor |].
  rewrite (seq_S W 0), flat_map_app, map_app. cbn [flat_map Nat.add].
  rewrite app_nil_r. apply StronglySorted_append.
  - exact IH.
  - rewrite map_map. unfold cell_index. cbn [fst snd].
    apply StronglySorted_map with (R := lt); [intros a b Hab; lia |].
    apply StronglySorted_filter_of, StronglySorted_seq.
  - intros x y Hx Hy.
    apply in_map_iff in Hx. destruct Hx as ([row col] & <- & Hx).
    apply in_map_iff in Hy. destruct Hy as ([row' col'] & <- & Hy).
    apply in_flat_map in Hx. destruct Hx as (c & Hc & Hx).
    apply in_map_iff in Hx. destruct Hx as (r & [= <- <-] & Hr).
    apply in_map_iff in Hy. destruct Hy as (r' & [= <- <-] & Hr').
    apply filter_In in Hr, Hr'. destruct Hr as [Hr _], Hr' as [Hr' _].
    apply in_seq in Hc, Hr, Hr'. unfold cell_index. cbn [fst snd]. lia.
Qed.

Lemma commit_dates_index (d : Z) (bitmap : list string) :
  commit_dates d bitmap
  = map (fun k => d + Z.of_nat k) (map cell_index (lit_cells bitmap)).
Proof.
  unfold commit_dates. rewrite map_map. apply map_ext.
  intros [row col]. unfold commit_date, cell_index. cbn [fst snd]. lia.
Qed.

Lemma write_string_to_git_dates (commit_ok : Z -> bool) (text : string)
    (year : Z) (w : list call) :
  2000 <= year <= 2100 ->
  exists bitmap c,
    build_bitmap text = Some bitmap
    /\ write_string_to_git true commit_ok text year w
       = (Ok c,
          (w ++ RevParse
             :: map Commit
                  (commit_dates (first_sunday (Date.date year 1 1)) bitmap))%list).
Proof.
  intros Hy.
  destruct (write_string_to_git_runs commit_ok text year w Hy)
    as (bitmap & c & Hb & Hrun).
  exists bitmap, c. split; [exact Hb |]. rewrite Hrun.
  unfold commit_dates. rewrite map_map. do 3 f_equal.
  apply map_ext. now intros [row col].
Qed.

(** X7. With a valid year and inside a repository, [write_string_to_git]
    makes its commits in the order of their dates, each date later than the
    one before: no date gets two commits. *)
Theorem commits_in_date_order (commit_ok : Z -> bool) (text : string)
    (year : Z) (w : list call) :
  2000 <= year <= 2100 ->
  exists dates c,
    write_string_to_git true commit_ok text year w
    = (Ok c, (w ++ RevParse :: map Commit dates)%list)
    /\ StronglySorted Z.lt dates
    /\ NoDup dates.
Proof.
  intros Hy.
  destruct (write_string_to_git_dates commit_ok text year w Hy)
    as (bitmap & c & _ & Hrun).
  eexists. exists c. split; [exact Hrun |].
  assert (StronglySorted Z.lt
            (commit_dates (first_sunday (Date.date year 1 1)) bitmap)) as Hs.
  { rewrite commit_dates_index.
    apply StronglySorted_map with (R := lt); [intros a b Hab; lia |].
    apply lit_cells_sorted. }
  split; [exact Hs | now apply StronglySorted_NoDup].
Qed.

Lemma commits_in_date_order_witness :
  2000 <= 2024 <= 2100
  /\ exists dates c,
       write_string_to_git true (fun _ => true) "hi" 2024 []
       = (Ok c, ([] ++ RevParse :: map Commit dates)%list)
       /\ StronglySorted Z.lt dates
       /\ NoDup dates.
Proof.
  split; [lia |].
  apply (commits_in_date_order (fun _ => true) "hi" 2024 []). lia.
Defined.

(** X8. With a valid year and inside a repository, every commit of
    [write_string_to_git] has a date of the year asked for, not before the
    first Sunday, and falls on a Monday, Tuesday, Wednesday, Thursday or
    Friday ([weekday()] from 0 to 4): the rows 1 to 5 of the grid. *)
Theorem commits_within_year (commit_ok : Z -> bool) (text : string)
    (year : Z) (w : list call) :
  2000 <= year <= 2100 ->
  exists dates c,
    write_string_to_git true commit_ok text year w
    = (Ok c, (w ++ RevParse :: map Commit dates)%list)
    /\ Forall (fun date =>
                 first_sunday (Date.date year 1 1) < date
                 /\ Date.date year 1 1 <= date < Date.date (year + 1) 1 1
                 /\ 0 <= Date.weekday date <= 4) dates.
Proof.
  intros Hy.
  destruct (write_string_to_git_dates commit_ok text year w Hy)
    as (bitmap & c & Hb & Hrun).
  eexists. exists c. split; [exact Hrun |].
  set (anchor := first_sunday (Date.date year 1 1)).
  destruct (first_sunday_spec (Date.date year 1 1)) as (Hsun & Hle & _).
  pose proof (first_sunday_within_week (Date.date year 1 1)) as Hweek.
  pose proof (year_length year) as Hlen.
  fold anchor in Hsun, Hle, Hweek.
  rewrite Forall_forall. intros date Hin.
  unfold commit_dates in Hin. apply in_map_iff in Hin.
  destruct Hin as ([row col] & <- & Hcell).
  apply In_lit_cells in Hcell. destruct Hcell as (_ & _ & Hlit).
  destruct (build_bitmap_ink text bitmap row col Hb Hlit) as (Hrow & Hcol).
  rewrite (weekday_of_cell anchor row col Hsun).
  unfold commit_date. repeat split; try lia.
  - assert (row = 1 \/ row = 2 \/ row = 3 \/ row = 4 \/ row = 5)%nat
      as Hr by lia.
    repeat destruct Hr as [Hr | Hr]; subst row; vm_compute; discriminate.
  - assert (row = 1 \/ row = 2 \/ row = 3 \/ row = 4 \/ row = 5)%nat
      as Hr by lia.
    repeat destruct Hr as [Hr | Hr]; subst row; vm_compute; discriminate.
Qed.

Lemma commits_within_year_witness :
  2000 <= 2024 <= 2100
  /\ exists dates c,
       write_string_to_git true (fun _ => true) "github2024" 2024 []
       = (Ok c, ([] ++ RevParse :: map Commit dates)%list)
       /\ Forall (fun date =>
                    first_sunday (Date.date 2024 1 1) < date
                    /\ Date.date 2024 1 1 <= date < Date.date (2024 + 1) 1 1
                    /\ 0 <= Date.weekday date <= 4) dates.
Proof.
  split; [lia |].
  apply (commits_within_year (fun _ => true) "github2024" 2024 []). lia.
Defined.

(** X9. With a valid year but outside a repository, [write_string_to_git]
    exits with status 1 after the one call of [git rev-parse]: it makes no
    commit. *)
Theorem outside_repository (commit_ok : Z -> bool) (text : string)
    (year : Z) (w : list call) :
  2000 <= year <= 2100 ->
  write_string_to_git false commit_ok text year w
  = (Exit 1, (w ++ [RevParse])%list).
Proof.
  intros Hy. unfold write_string_to_git.
  destruct (Z.ltb_spec year 2000); [lia |].
  destruct (Z.gtb_spec year 2100); [lia |]. reflexivity.
Qed.

Lemma outside_repository_witness :
  2000 <= 2000 <= 2100
  /\ write_string_to_git false (fun _ => true) "hi" 2000 []
     = (Exit 1, ([] ++ [RevParse])%list).
Proof.
  split; [lia |].
  apply (outside_repository (fun _ => true) "hi" 2000 []). lia.
Defined.

(** *** The counters *)

(** A loop whose body always returns, with a new state and new calls that
    are functions of the element, folds the one and appends the others. *)
Lemma for_each_run {A S : Type} (body : A -> S -> M S)
    (upd : S -> A -> S) (out : A -> list call) (l : list A) :
  (forall x, In x l ->
     forall s w, body x s w = (Ok (upd s x), (w ++ out x)%list)) ->
  forall s w,
    for_each l body s w = (Ok (fold_left upd l s), (w ++ flat_map out l)%list).
Proof.
  induction l as [| x l IH]; intros Hbody s w; simpl.
  - unfold ret. now rewrite app_nil_r.
  - unfold bind. rewrite (Hbody x (or_introl eq_refl) s w).
    rewrite (IH (fun y Hy => Hbody y (or_intror Hy))).
    now rewrite app_assoc.
Qed.

Lemma fold_cells {S : Type} (f : S -> Z -> S) (p : nat -> nat -> bool)
    (cd : nat -> nat -> Z) (rows cols : list nat) :
  forall s,
    fold_left
      (fun s col =>
         fold_left (fun s row => if p row col then f s (cd row col) else s)
           rows s)
      cols s
    = fold_left f
        (map (fun '(row, col) => cd row col)
           (flat_map
              (fun col =>
                 map (fun row => (row, col))
                   (filter (fun row => p row col) rows))
              cols))
        s.
Proof.
  induction cols as [| col cols IH]; intros s; [reflexivity |].
  cbn [fold_left flat_map]. rewrite map_app, fold_left_app, IH. f_equal.
  clear IH. revert s. induction rows as [| row rows IHr]; intros s;
    [reflexivity |].
  cbn [fold_left filter]. destruct (p row col); cbn [map fold_left];
    apply IHr.
Qed.

Lemma tally_counts (commit_ok : Z -> bool) (dates : list Z) :
  forall c,
    commit_count (fold_left (tally commit_ok) dates c)
    = commit_count c + Z.of_nat (List.length (filter commit_ok dates))
    /\ failed_commits (fold_left (tally commit_ok) dates c)
       = failed_commits c
         + Z.of_nat (List.length (filter (fun d => negb (commit_ok d)) dates)).
Proof.
  induction dates as [| d dates IH]; intros c; [simpl; lia |].
  cbn [fold_left filter]. destruct (IH (tally commit_ok c d)) as [-> ->].
  unfold tally. destruct (commit_ok d); cbn [negb List.length commit_count failed_commits];
    rewrite ?Nat2Z.inj_succ; lia.
Qed.

Section Counters.

Variable commit_ok : Z -> bool.
Variable bitmap : list string.
Variable d : Z.
Variable W : nat.
Hypothesis seven_rows : List.length bitmap = 7%nat.
Hypothesis row_width : Forall (fun r => String.length r = W) bitmap.

Lemma emit_cell_run (col row : nat) :
  (col < W)%nat -> (row < 7)%nat ->
  forall c w,
    emit_cell commit_ok bitmap d col row c w
    = (Ok (if lit bitmap row col
           then tally commit_ok c (commit_date d row col) else c),
       (w ++ (if lit bitmap row col
              then [Commit (commit_date d row col)] else []))%list).
Proof.
  intros Hcol Hrow c w.
  destruct (nth_error bitmap row) as [r |] eqn:Hr;
    [| apply nth_error_None in Hr; lia].
  assert (String.length r = W) as Hlen.
  { rewrite Forall_forall in row_width. apply row_width.
    eapply nth_error_In, Hr. }
  destruct (string_get_some r col ltac:(lia)) as (x & Hx).
  unfold emit_cell, lit, bind, lift, generate_commit, ret, tally.
  rewrite Hr, Hx.
  destruct (Ascii.eqb x "1").
  - now destruct (commit_ok _).
  - now rewrite app_nil_r.
Qed.

Lemma emission_counters (c : counters) (w : list call) :
  fst (for_each (seq 0 W)
         (fun col => for_each (seq 0 7) (emit_cell commit_ok bitmap d col))
         c w)
  = Ok (fold_left (tally commit_ok)
          (map (fun '(row, col) => commit_date d row col)
             (flat_map
                (fun col =>
                   map (fun row => (row, col))
                     (filter (fun row => lit bitmap row col) (seq 0 7)))
                (seq 0 W)))
          c).
Proof.
  rewrite <- fold_cells.
  erewrite for_each_run; [reflexivity |].
  intros col Hcol s w0. apply in_seq in Hcol.
  apply for_each_run with
    (upd := fun s row =>
              if lit bitmap row col
              then tally commit_ok s (commit_date d row col) else s)
    (out := fun row =>
              if lit bitmap row col
              then [Commit (commit_date d row col)] else []).
  intros row Hrow s1 w1. apply in_seq in Hrow.
  apply emit_cell_run; lia.
Qed.

End Counters.

Lemma write_string_to_git_counters (commit_ok : Z -> bool) (text : string)
    (year : Z) (w : list call) :
  2000 <= year <= 2100 ->
  exists bitmap,
    build_bitmap text = Some bitmap
    /\ List.length bitmap = 7%nat
    /\ Forall (fun r => String.length r = String.length (nth 0 bitmap ""))
         bitmap
    /\ write_string_to_git true commit_ok text year w
       = (Ok (fold_left (tally commit_ok)
                (commit_dates (first_sunday (Date.date year 1 1)) bitmap)
                (mkCounters 0 0)),
          (w ++ RevParse
             :: map Commit
                  (commit_dates (first_sunday (Date.date year 1 1)) bitmap))%list).
Proof.
  intros Hy.
  destruct (build_bitmap_dims text) as (bitmap & W & Hb & H7 & HW).
  destruct (write_string_to_git_dates commit_ok text year w Hy)
    as (bitmap' & c & Hb' & Hrun).
  rewrite Hb in Hb'. injection Hb' as <-.
  exists bitmap.
  destruct bitmap as [| row0 rows]; [discriminate H7 |].
  assert (String.length row0 = W) as HW0 by now inversion HW.
  repeat split; try assumption.
  - cbn [nth]. now rewrite HW0.
  - rewrite Hrun. f_equal. 
    pose proof (emission_counters commit_ok (row0 :: rows)
                  (first_sunday (Date.date year 1 1)) W H7 HW
                  (mkCounters 0 0) (w ++ [RevParse])%list) as Hfst.
    revert Hrun. unfold write_string_to_git.
    destruct (Z.ltb_spec year 2000); [lia |].
    destruct (Z.gtb_spec year 2100); [lia |].
    cbn [orb]. unfold bind at 1. unfold rev_parse. cbn [negb].
    unfold bind at 1. unfold lift at 1. rewrite Hb.
    unfold bind at 1. unfold lift at 1. cbn [nth_error].
    rewrite HW0. intros Hrun. rewrite Hrun in Hfst. cbn [fst] in Hfst.
    rewrite Hfst. unfold commit_dates, lit_cells. cbn [nth].
    now rewrite HW0.
Qed.

(** X10. With a valid year and inside a repository, a commit that fails
    does not stop [write_string_to_git]: every date of a lit cell gets its
    call whatever [git commit] answers, [commit_count] is the number of the
    dates for which it succeeded, [failed_commits] the number of the
    others. *)
Theorem failures_are_tallied (commit_ok : Z -> bool) (text : string)
    (year : Z) (w : list call) :
  2000 <= year <= 2100 ->
  exists bitmap c,
    build_bitmap text = Some bitmap
    /\ write_string_to_git true commit_ok text year w
       = (Ok c,
          (w ++ RevParse
             :: map Commit
                  (commit_dates (first_sunday (Date.date year 1 1)) bitmap))%list)
    /\ commit_count c
       = Z.of_nat (List.length
                     (filter commit_ok
                        (commit_dates (first_sunday (Date.date year 1 1))
                           bitmap)))
    /\ failed_commits c
       = Z.of_nat (List.length
                     (filter (fun date => negb (commit_ok date))
                        (commit_dates (first_sunday (Date.date year 1 1))
                           bitmap))).
Proof.
  intros Hy.
  destruct (write_string_to_git_counters commit_ok text year w Hy)
    as (bitmap & Hb & _ & _ & Hrun).
  exists bitmap. eexists. split; [exact Hb |]. split; [exact Hrun |].
  destruct (tally_counts commit_ok
              (commit_dates (first_sunday (Date.date year 1 1)) bitmap)
              (mkCounters 0 0)) as [Hc Hf].
  rewrite Hc, Hf. cbn [commit_count failed_commits]. lia.
Qed.

Lemma failures_are_tallied_witness :
  2000 <= 2024 <= 2100
  /\ exists bitmap c,
       build_bitmap "ok" = Some bitmap
       /\ write_string_to_git true Z.even "ok" 2024 []
          = (Ok c,
             ([] ++ RevParse
                :: map Commit
                     (commit_dates (first_sunday (Date.date 2024 1 1))
                        bitmap))%list)
       /\ commit_count c
          = Z.of_nat (List.length
                        (filter Z.even
                           (commit_dates (first_sunday (Date.date 2024 1 1))
                              bitmap)))
       /\ failed_commits c
          = Z.of_nat (List.length
                        (filter (fun date => negb (Z.even date))
                           (commit_dates (first_sunday (Date.date 2024 1 1))
                              bitmap))).
Proof.
  split; [lia |].
  apply (failures_are_tallied Z.even "ok" 2024 []). lia.
Defined.

(** *** The number of commits announced *)

Lemma length_filter_map {A B : Type} (p : B -> bool) (f : A -> B)
    (l : list A) :
  List.length (filter p (map f l))
  = List.length (filter (fun x => p (f x)) l).
Proof.
  induction l as [| x l IH]; simpl; [reflexivity |].
  destruct (p (f x)); simpl; now rewrite IH.
Qed.

Lemma count_by_index (r : string) :
  List.length (filter (fun c => Ascii.eqb c "1") (Str.chars r))
  = List.length
      (filter (fun col =>
                 match String.get col r with
                 | Some c => Ascii.eqb c "1"
                 | None => false
                 end)
         (seq 0 (String.length r))).
Proof.
  induction r as [| x r IH]; [reflexivity |].
  cbn [Str.chars list_ascii_of_string String.length seq filter String.get].
  rewrite <- seq_shift.
  fold (Str.chars r).
  destruct (Ascii.eqb x "1"); cbn [List.length];
    rewrite length_filter_map; cbn [String.get]; now rewrite IH.
Qed.

Lemma list_sum_indicator {A : Type} (p : A -> bool) (l : list A) :
  list_sum (map (fun y => if p y then 1%nat else 0%nat) l)
  = List.length (filter p l).
Proof.
  induction l as [| y l IH]; simpl; [reflexivity |].
  destruct (p y); simpl; now rewrite IH.
Qed.

Lemma list_sum_add {A : Type} (f g : A -> nat) (l : list A) :
  list_sum (map (fun y => (f y + g y)%nat) l)
  = (list_sum (map f l) + list_sum (map g l))%nat.
Proof. induction l as [| y l IH]; simpl; [reflexivity | rewrite IH; lia]. Qed.

(** Counting the pairs that satisfy [p] row by row or column by column
    gives the same number. *)
Lemma count_swap {A B : Type} (p : A -> B -> bool) (l1 : list A)
    (l2 : list B) :
  list_sum (map (fun x => List.length (filter (p x) l2)) l1)
  = list_sum (map (fun y => List.length (filter (fun x => p x y) l1)) l2).
Proof.
  induction l1 as [| x l1 IH]; simpl.
  - induction l2 as [| y l2 IH2]; simpl; [reflexivity | exact IH2].
  - rewrite IH, <- list_sum_indicator, <- list_sum_add. f_equal.
    apply map_ext. intros y. now destruct (p x y).
Qed.

Lemma length_flat_map_sum {A B : Type} (g : A -> list B) (l : list A) :
  List.length (flat_map g l) = list_sum (map (fun x => List.length (g x)) l).
Proof.
  induction l as [| x l IH]; simpl; [reflexivity |].
  now rewrite length_app, IH.
Qed.

Lemma total_commits_cells (bitmap : list string) :
  List.length bitmap = 7%nat ->
  Forall (fun r => String.length r = String.length (nth 0 bitmap "")) bitmap ->
  total_commits bitmap = Z.of_nat (List.length (lit_cells bitmap)).
Proof.
  intros H7 HW. unfold lit_cells.
  set (W := String.length (nth 0 bitmap "")) in *.
  rewrite length_flat_map_sum.
  rewrite (map_ext _ (fun col =>
             List.length (filter (fun row => lit bitmap row col) (seq 0 7))))
    by (intros col; apply length_map).
  rewrite <- (count_swap (fun row col => lit bitmap row col) (seq 0 7) (seq 0 W)).
  do 8 (destruct bitmap as [| ? bitmap]; try discriminate H7).
  repeat match goal with
         | H : Forall _ (_ :: _) |- _ => inversion H; clear H; subst
         end.
  unfold total_commits, count_ones, lit.
  cbn [seq map list_sum fold_right nth_error].
  rewrite !count_by_index.
  repeat match goal with
         | H : String.length _ = W |- _ => rewrite H
         end.
  lia.
Qed.

(** X11. The number [write_string_to_git] announces, [total_commits], is
    the number of commits it goes on to attempt with a valid year and
    inside a repository, and the two counters add up to it in the end. *)
Theorem announced_total (commit_ok : Z -> bool) (text : string)
    (year : Z) (w : list call) :
  2000 <= year <= 2100 ->
  exists bitmap dates c,
    build_bitmap text = Some bitmap
    /\ write_string_to_git true commit_ok text year w
       = (Ok c, (w ++ RevParse :: map Commit dates)%list)
    /\ Z.of_nat (List.length dates) = total_commits bitmap
    /\ commit_count c + failed_commits c = total_commits bitmap.
Proof.
  intros Hy.
  destruct (write_string_to_git_counters commit_ok text year w Hy)
    as (bitmap & Hb & H7 & HW & Hrun).
  exists bitmap. eexists. eexists.
  split; [exact Hb |]. split; [exact Hrun |].
  rewrite (total_commits_cells bitmap H7 HW).
  set (dates := commit_dates (first_sunday (Date.date year 1 1)) bitmap).
  assert (List.length dates = List.length (lit_cells bitmap)) as Hlen
    by apply length_map.
  destruct (tally_counts commit_ok dates (mkCounters 0 0)) as [Hc Hf].
  rewrite Hc, Hf, <- Hlen. cbn [commit_count failed_commits].
  split; [reflexivity |].
  clear. induction dates as [| d dates IH]; [reflexivity |].
  cbn [filter]. destruct (commit_ok d); cbn [negb List.length];
    rewrite ?Nat2Z.inj_succ; lia.
Qed.

Lemma announced_total_witness :
  2000 <= 2024 <= 2100
  /\ exists bitmap dates c,
       build_bitmap "ok" = Some bitmap
       /\ write_string_to_git true Z.even "ok" 2024 []
          = (Ok c, ([] ++ RevParse :: map Commit dates)%list)
       /\ Z.of_nat (List.length dates) = total_commits bitmap
       /\ commit_count c + failed_commits c = total_commits bitmap.
Proof.
  split; [lia |].
  apply (announced_total Z.even "ok" 2024 []). lia.
Defined.

(** *** The ways [write_string_to_git] and the [__main__] block end *)

Lemma write_string_to_git_cases (rev_parse_ok : bool) (commit_ok : Z -> bool)
    (text : string) (year : Z) (w : list call) :
  write_string_to_git rev_parse_ok commit_ok text year w = (Exit 1, w)
  \/ write_string_to_git rev_parse_ok commit_ok text year w
     = (Exit 1, (w ++ [RevParse])%list)
  \/ exists c w',
       write_string_to_git rev_parse_ok commit_ok text year w = (Ok c, w').
Proof.
  destruct (Z.ltb_spec year 2000) as [Hlo | Hlo];
    [left; unfold write_string_to_git;
     destruct (Z.ltb_spec year 2000); [reflexivity | lia] |].
  destruct (Z.gtb_spec year 2100) as [Hhi | Hhi];
    [left; unfold write_string_to_git;
     destruct (Z.ltb_spec year 2000); [lia |];
     destruct (Z.gtb_spec year 2100); [reflexivity | lia] |].
  right. destruct rev_parse_ok.
  - right.
    destruct (write_string_to_git_runs commit_ok text year w ltac:(lia))
      as (bitmap & c & _ & Hrun).
    rewrite Hrun. eexists. eexists. reflexivity.
  - left. unfold write_string_to_git.
    destruct (Z.ltb_spec year 2000); [lia |].
    destruct (Z.gtb_spec year 2100); [lia |]. reflexivity.
Qed.

(** X12. No index is out of range, whatever the text, the year, the mode
    and the answers of [git]: [bitmap_rows[0]] and [bitmap_rows[row][col]]
    exist each time [write_string_to_git], the [__main__] block and
    [preview_bitmap] on the bitmap of the text read them. [Error] is the
    result of such an index only: what printing or [subprocess.run] itself
    may raise is outside the model. *)
Theorem no_index_out_of_range (rev_parse_ok : bool) (commit_ok : Z -> bool)
    (text : string) (year : Z) (preview : bool) (w : list call) :
  fst (write_string_to_git rev_parse_ok commit_ok text year w) <> Error
  /\ fst (main rev_parse_ok commit_ok text year preview w) <> Error
  /\ exists bitmap,
       build_bitmap text = Some bitmap /\ preview_bitmap bitmap <> None.
Proof.
  split; [| split].
  - destruct (write_string_to_git_cases rev_parse_ok commit_ok text year w)
      as [H | [H | (c & w' & H)]]; rewrite H; discriminate.
  - unfold main, bind, lift. rewrite build_bitmap_eq.
    destruct (not_any _); [discriminate |].
    destruct preview; [discriminate |].
    destruct (write_string_to_git_cases rev_parse_ok commit_ok text year w)
      as [H | [H | (c & w' & H)]]; rewrite H; discriminate.
  - rewrite build_bitmap_eq. eexists. split; [reflexivity |].
    unfold preview_bitmap, bitmap_of. cbn [seq map nth_error]. discriminate.
Qed.

(** X13. In preview mode the [__main__] block never calls [git] and never
    looks at the year: it exits with status 1 when no row of the bitmap has
    a column, and hands the bitmap of [build_bitmap] to the preview
    otherwise. *)
Theorem preview_makes_no_call (rev_parse_ok : bool) (commit_ok : Z -> bool)
    (text : string) (year : Z) (w : list call) :
  exists bitmap,
    build_bitmap text = Some bitmap
    /\ main rev_parse_ok commit_ok text year true w
       = (if not_any bitmap then Exit 1 else Ok (Previewed bitmap), w).
Proof.
  unfold main, bind, lift. rewrite build_bitmap_eq.
  eexists. split; [reflexivity |]. now destruct (not_any _).
Qed.

(** *** Nothing to render *)

Lemma not_any_bitmap_of (cs : list ascii) :
  forallb supported cs = true ->
  not_any (bitmap_of cs) = match cs with [] => true | _ :: _ => false end.
Proof.
  intros Hcs. destruct cs as [| c cs]; [reflexivity |].
  pose proof (bitmap_of_rows (c :: cs) Hcs) as Hrows.
  unfold bitmap_of in *. cbn [seq map] in *.
  inversion Hrows as [| r rs Hr _]; subst.
  simpl in Hcs. apply andb_true_iff in Hcs. destruct Hcs as [Hc _].
  pose proof (cell_width_bounds c Hc).
  pose proof (width_of_nonneg cs).
  cbn [width_of fold_right] in Hr. fold (width_of cs) in Hr.
  unfold not_any. cbn [existsb].
  destruct (String.eqb_spec (Str.mul "0" (width_of (c :: cs))) "") as [E | _];
    [| reflexivity].
  cbn [width_of fold_right] in E. fold (width_of cs) in E.
  rewrite E in Hr. unfold Str.len in Hr. simpl in Hr. lia.
Qed.

Lemma count_ones_append (s t : string) :
  count_ones (s ++ t) = count_ones s + count_ones t.
Proof.
  unfold count_ones.
  rewrite StrFacts.chars_append, filter_app, length_app. lia.
Qed.

Lemma count_ones_nonneg (s : string) : 0 <= count_ones s.
Proof. unfold count_ones. lia. Qed.

(** Every glyph of the table has ink. *)
Lemma CHAR_MAP_ink :
  forallb
    (fun kv =>
       1 <=? fold_right Z.add 0
               (map (fun i => count_ones (nth i (snd kv) "")) (seq 0 6)))
    CHAR_MAP = true.
Proof. vm_compute. reflexivity. Qed.

Lemma total_commits_bitmap_of (c : ascii) (cs : list ascii) :
  supported c = true -> 1 <= total_commits (bitmap_of (c :: cs)).
Proof.
  intros Hc. destruct (supported_get c Hc) as (row0 & g' & Hg).
  pose proof CHAR_MAP_ink as Hink. rewrite forallb_forall in Hink.
  specialize (Hink _ (dict_get_In _ _ _ Hg)). apply Z.leb_le in Hink.
  cbn [snd seq map fold_right] in Hink.
  unfold total_commits, bitmap_of. cbn [seq map fold_right].
  unfold drawn_row. cbn [map Str.join fold_right].
  fold (Str.join (map (fun c => (nth 0 (glyph c) "" ++ "0")%string) cs)).
  fold (Str.join (map (fun c => (nth 1 (glyph c) "" ++ "0")%string) cs)).
  fold (Str.join (map (fun c => (nth 2 (glyph c) "" ++ "0")%string) cs)).
  fold (Str.join (map (fun c => (nth 3 (glyph c) "" ++ "0")%string) cs)).
  fold (Str.join (map (fun c => (nth 4 (glyph c) "" ++ "0")%string) cs)).
  fold (Str.join (map (fun c => (nth 5 (glyph c) "" ++ "0")%string) cs)).
  rewrite !count_ones_append. unfold glyph. rewrite Hg.
  repeat match goal with
         | |- context [count_ones ?s] =>
             lazymatch goal with
             | _ : 0 <= count_ones s |- _ => fail
             | _ => pose proof (count_ones_nonneg s)
             end
         end.
  lia.
Qed.

Lemma accepted_nil_iff (text : list ascii) :
  accepted text 0 = [] <-> filter supported text = [].
Proof.
  split; [apply accepted_nil |].
  intros H. destruct (accepted_prefix text 0) as (rest & Hrest).
  rewrite H in Hrest. symmetry in Hrest. now apply app_eq_nil in Hrest.
Qed.

(** X14. The test [not any(bitmap)] of the [__main__] block holds exactly
    when none of the characters the loop sees is supported, and exactly when
    the bitmap has no lit cell, [total_commits] being 0. *)
Theorem empty_check_exact (text : string) :
  exists bitmap,
    build_bitmap text = Some bitmap
    /\ (not_any bitmap = true
        <-> filter supported (Str.chars (prepared text)) = [])
    /\ (not_any bitmap = true <-> total_commits bitmap = 0).
Proof.
  rewrite build_bitmap_eq. eexists. split; [reflexivity |].
  pose proof (accepted_supported (Str.chars (prepared text)) 0) as Hcs.
  rewrite <- accepted_nil_iff.
  rewrite (not_any_bitmap_of _ Hcs).
  destruct (accepted (Str.chars (prepared text)) 0) as [| c cs] eqn:E.
  - split; split; reflexivity.
  - simpl in Hcs. apply andb_true_iff in Hcs. destruct Hcs as [Hc _].
    pose proof (total_commits_bitmap_of c cs Hc).
    split; split; intros; (discriminate || lia).
Qed.

(** X15. In commit mode, with a text that has a supported character among
    its first ten, a valid year and a repository, the [__main__] block
    returns after [git rev-parse] and one [git commit] for each lit cell,
    at least one. *)
Theorem main_commits (commit_ok : Z -> bool) (text : string) (year : Z)
    (w : list call) :
  2000 <= year <= 2100 ->
  filter supported (Str.chars (prepared text)) <> [] ->
  exists bitmap c,
    build_bitmap text = Some bitmap
    /\ main true commit_ok text year false w
       = (Ok (Committed c),
          (w ++ RevParse
             :: map Commit
                  (commit_dates (first_sunday (Date.date year 1 1)) bitmap))%list)
    /\ 1 <= total_commits bitmap
    /\ Z.of_nat (List.length
                   (commit_dates (first_sunday (Date.date year 1 1)) bitmap))
       = total_commits bitmap.
Proof.
  intros Hy Hsome.
  destruct (write_string_to_git_counters commit_ok text year w Hy)
    as (bitmap & Hb & H7 & HW & Hrun).
  exists bitmap. eexists. split; [exact Hb |].
  pose proof Hb as Hb'. rewrite build_bitmap_eq in Hb'. injection Hb' as Hb'.
  pose proof (accepted_supported (Str.chars (prepared text)) 0) as Hcs.
  destruct (accepted (Str.chars (prepared text)) 0) as [| c cs] eqn:E;
    [apply accepted_nil_iff in E; contradiction |].
  assert (not_any bitmap = false) as Hany
    by (rewrite <- Hb'; now rewrite not_any_bitmap_of).
  assert (1 <= total_commits bitmap) as Htotal.
  { rewrite <- Hb'. apply total_commits_bitmap_of.
    simpl in Hcs. now apply andb_true_iff in Hcs. }
  repeat split.
  - unfold main, bind, lift. now rewrite Hb, Hany, Hrun.
  - exact Htotal.
  - rewrite (total_commits_cells bitmap H7 HW). f_equal. apply length_map.
Qed.

Lemma main_commits_witness :
  2000 <= 2024 <= 2100
  /\ filter supported (Str.chars (prepared "Hi!")) <> []
  /\ exists bitmap c,
       build_bitmap "Hi!" = Some bitmap
       /\ main true (fun _ => true) "Hi!" 2024 false []
          = (Ok (Committed c),
             ([] ++ RevParse
                :: map Commit
                     (commit_dates (first_sunday (Date.date 2024 1 1))
                        bitmap))%list)
       /\ 1 <= total_commits bitmap
       /\ Z.of_nat (List.length
                      (commit_dates (first_sunday (Date.date 2024 1 1))
                         bitmap))
          = total_commits bitmap.
Proof.
  split; [lia |]. split; [vm_compute; discriminate |].
  apply (main_commits (fun _ => true) "Hi!" 2024 []);
    [lia | vm_compute; discriminate].
Defined.

(** *** The preview *)

Lemma get_nth_error (r : string) :
  forall col, String.get col r = nth_error (Str.chars r) col.
Proof.
  unfold Str.chars. induction r as [| x r IH]; intros [| col]; simpl;
    try reflexivity. apply IH.
Qed.

(** X16. The preview of the bitmap of any text is 7 lines as wide as the
    width it reports, at most 52, and shows a block exactly where the
    bitmap has a lit cell: where [write_string_to_git] would commit. *)
Theorem preview_shows_lit_cells (text : string) :
  exists bitmap lines width,
    build_bitmap text = Some bitmap
    /\ preview_bitmap bitmap = Some (lines, width)
    /\ List.length lines = 7%nat
    /\ width <= 52
    /\ Forall (fun line => Z.of_nat (List.length line) = width) lines
    /\ forall row col,
         (exists line, nth_error lines row = Some line
                       /\ nth_error line col = Some block)
         <-> lit bitmap row col = true.
Proof.
  set (cs := accepted (Str.chars (prepared text)) 0).
  pose proof (accepted_supported (Str.chars (prepared text)) 0) as Hcs.
  pose proof (accepted_width (Str.chars (prepared text)) 0 ltac:(lia)) as Hw.
  fold cs in Hcs, Hw.
  pose proof (bitmap_of_rows cs Hcs) as Hrows.
  pose proof (build_bitmap_eq text) as Hb. fold cs in Hb.
  assert (exists row0 rows, bitmap_of cs = row0 :: rows) as (row0 & rows & E)
    by (unfold bitmap_of; eexists; eexists; reflexivity).
  assert (List.length (bitmap_of cs) = 7%nat) as H7 by reflexivity.
  rewrite E in *.
  exists (row0 :: rows), (map preview_row (row0 :: rows)), (Str.len row0).
  assert (Str.len row0 = width_of cs) as H0 by now inversion Hrows.
  repeat split.
  - exact Hb.
  - now rewrite length_map.
  - lia.
  - rewrite Forall_map. rewrite Forall_forall in *. intros r Hr.
    unfold preview_row. rewrite length_map, StrFacts.length_chars.
    fold (Str.len r). rewrite (Hrows r Hr). now symmetry.
  - intros (line & Hline & Hcol). rewrite nth_error_map in Hline.
    unfold lit. destruct (nth_error (row0 :: rows) row) as [r |];
      [| discriminate].
    injection Hline as <-. unfold preview_row in Hcol.
    rewrite nth_error_map, <- get_nth_error in Hcol.
    destruct (String.get col r) as [c |]; [| discriminate].
    simpl in Hcol. destruct (Ascii.eqb c "1"); [reflexivity | discriminate].
  - unfold lit. intros Hlit.
    destruct (nth_error (row0 :: rows) row) as [r |] eqn:Hr; [| discriminate].
    exists (preview_row r). split.
    + now rewrite nth_error_map, Hr.
    + unfold preview_row. rewrite nth_error_map, <- get_nth_error.
      destruct (String.get col r) as [c |]; [| discriminate].
      simpl. now rewrite Hlit.
Qed.

Lemma dates_in_range_witness :
  2000 <= 2100 <= 2100 /\ (5 < 7)%nat /\ (50 < 52)%nat
  /\ Date.min_ordinal <= Date.date 2100 1 1
  /\ commit_date (first_sunday (Date.date 2100 1 1)) 5 50 <= Date.max_ordinal.
Proof.
  split; [lia |]. split; [lia |]. split; [lia |].
  apply (dates_in_range 2100 5 50); lia.
Defined.
